(** * ncov_parser: the QC reducers of [ncov/parser/qc.py]

    A shallow embedding of the functions of [qc.py] and the properties
    of its specification.

    Conventions of the embedding.
    - A Python [str] is a [string]; the pipeline's files are ASCII text,
      and characters above 127 are carried along as caseless,
      non-blank characters.
    - An open text file is the text the text layer delivers (newline
      translation already applied); iterating over it yields its lines,
      each one with its terminating newline ([readlines]).
    - A Python exception is a constructor of [exn]; a function that may
      raise returns a [result].
    - Python integers are unbounded: counters are [nat], depths are [Z].
    - A Python [float] is carried as the rational number it denotes
      ([PyFloat]); quotients are rounded to the nearest double, ties to
      even, as the interpreter rounds them ([true_divide]). *)

From stdpp Require Import gmap strings list.
From Stdlib Require Import Ascii ZArith QArith Lia DecimalString Sorted.

#[local] Open Scope nat_scope.

(** ** Exceptions and results *)

Inductive exn : Type :=
| IndexError          (* list index out of range *)
| KeyError            (* dict key absent *)
| ValueError          (* int() on a non-numeric literal *)
| UnboundLocalError   (* local variable read before assignment *)
| StatisticsError     (* statistics.mean / median of no data *)
| OverflowError.      (* an integer quotient too large for a float *)

Inductive result (A : Type) : Type :=
| OK (a : A)
| Err (e : exn).
Arguments OK {A} a.
Arguments Err {A} e.

#[global] Instance result_ret : MRet result := fun _ a => OK a.
#[global] Instance result_bind : MBind result := fun _ _ f r =>
  match r with
  | OK a => f a
  | Err e => Err e
  end.

(** The error kinds of the specification, and the kind each Python
    exception of this module falls under.  ([OverflowError], which the
    specification does not name, arises from a depth too large to
    average: it is counted with the malformed values.) *)
Inductive error_kind : Type := FormatError | EmptyInputError | MissingKeyError.

Definition error_kind_of (e : exn) : error_kind :=
  match e with
  | IndexError | ValueError | UnboundLocalError | OverflowError => FormatError
  | StatisticsError => EmptyInputError
  | KeyError => MissingKeyError
  end.

(** [l[i]] for a non-negative literal index. *)
Definition py_index {A} (l : list A) (i : nat) : result A :=
  match l !! i with
  | Some x => OK x
  | None => Err IndexError
  end.

(** The [for line in file_p:] loop: [body] returns the state after one
    line ([continue] returns it early); an exception leaves the loop. *)
Fixpoint for_each {S} (body : S → string → result S)
    (lines : list string) (st : S) : result S :=
  match lines with
  | [] => OK st
  | line :: rest => st' ← body st line; for_each body rest st'
  end.

(** ** Text primitives *)

Definition TAB : ascii := "009"%char.
Definition LF : ascii := "010"%char.
Definition COMMA : ascii := ","%char.

(** [str.isspace] on one ASCII character: TAB, LF, VT, FF, CR, the
    separators FS, GS, RS, US, and the space. *)
Definition isspace (c : ascii) : bool :=
  let n := nat_of_ascii c in
  ((9 <=? n) && (n <=? 13)) || ((28 <=? n) && (n <=? 32)).

Definition upper_char (c : ascii) : ascii :=
  let n := nat_of_ascii c in
  if (97 <=? n) && (n <=? 122) then ascii_of_nat (n - 32) else c.

Definition lower_char (c : ascii) : ascii :=
  let n := nat_of_ascii c in
  if (65 <=? n) && (n <=? 90) then ascii_of_nat (n + 32) else c.

Fixpoint map_string (f : ascii → ascii) (s : string) : string :=
  match s with
  | EmptyString => EmptyString
  | String c s' => String (f c) (map_string f s')
  end.

(** [str.upper] and [str.lower] on ASCII text: the letters a-z and A-Z
    change case and no other ASCII character does.  (Python also maps
    letters above 127, some of them to ASCII letters; these are outside
    the model, see the conventions above.) *)
Definition upper : string → string := map_string upper_char.
Definition lower : string → string := map_string lower_char.

(** [re.match("^lit", s)] for a pattern [lit] without metacharacters:
    [s] starts with [lit]. *)
Fixpoint re_match (lit s : string) : bool :=
  match lit with
  | EmptyString => true
  | String a lit' =>
      match s with
      | EmptyString => false
      | String b s' => Ascii.eqb a b && re_match lit' s'
      end
  end.

(** [re.search("[cls]", s)] for a character class [cls]: some character
    of [s] is one of the characters of [cls]. *)
Fixpoint in_class (cls : string) (c : ascii) : bool :=
  match cls with
  | EmptyString => false
  | String a cls' => Ascii.eqb a c || in_class cls' c
  end.

Fixpoint re_search (cls s : string) : bool :=
  match s with
  | EmptyString => false
  | String c s' => in_class cls c || re_search cls s'
  end.

(** [s.split(sep)] for a one-character separator. *)
Fixpoint split (sep : ascii) (s : string) : list string :=
  match s with
  | EmptyString => [EmptyString]
  | String c s' =>
      if Ascii.eqb c sep then EmptyString :: split sep s'
      else match split sep s' with
           | [] => [String c EmptyString]
           | f :: fs => String c f :: fs
           end
  end.

(** [s.lstrip()], [s.rstrip()], [s.strip()]. *)
Fixpoint lstrip (s : string) : string :=
  match s with
  | EmptyString => EmptyString
  | String c s' => if isspace c then lstrip s' else s
  end.

Fixpoint rstrip (s : string) : string :=
  match s with
  | EmptyString => EmptyString
  | String c s' =>
      match rstrip s' with
      | EmptyString => if isspace c then EmptyString else String c EmptyString
      | r => String c r
      end
  end.

Definition strip (s : string) : string := rstrip (lstrip s).

(** The lines a text file yields when iterated over: each line keeps
    its newline; a last line without one is yielded as it is. *)
Fixpoint readlines (text : string) : list string :=
  match text with
  | EmptyString => []
  | String c text' =>
      if Ascii.eqb c LF then String c EmptyString :: readlines text'
      else match readlines text' with
           | [] => [String c EmptyString]
           | l :: ls => String c l :: ls
           end
  end.

(** ** [is_variant_n], [is_variant_iupac], [is_indel] *)

Definition is_variant_n (variant : string) : bool :=
  re_search "Nn" (upper variant).

Definition is_variant_iupac (variant : string) : bool :=
  re_search "RYSWKMBDHV" (upper variant).

Definition is_indel (variant : string) : bool :=
  1 <? String.length variant.

(** ** [get_total_variants] *)

(** The five local counters of the loop. *)
Record counters : Type := Counters {
  counter : nat;
  counter_n : nat;
  counter_iupac : nat;
  counter_snv : nat;
  counter_indel : nat
}.

(** The returned dictionary, one field per key. *)
Record variant_counts : Type := VariantCounts {
  total_variants : nat;
  total_n : nat;
  total_iupac : nat;
  total_snv : nat;
  total_indel : nat
}.

Definition variants_header : string :=
  "REGION" +:+ String TAB "POS" +:+ String TAB "REF".

Definition count_indel (c : counters) : counters :=
  Counters (S (counter c)) (counter_n c) (counter_iupac c)
           (counter_snv c) (S (counter_indel c)).

Definition count_snv (c : counters) : counters :=
  Counters (S (counter c)) (counter_n c) (counter_iupac c)
           (S (counter_snv c)) (counter_indel c).

(** Lines 75-79: N and IUPAC codes are counted separately. *)
Definition count_ambiguity (data : list string) (c : counters) : result counters :=
  alt ← py_index data 3;
  if is_variant_n alt then
    OK (Counters (counter c) (S (counter_n c)) (counter_iupac c)
                 (counter_snv c) (counter_indel c))
  else
    alt' ← py_index data 3;
    if is_variant_iupac alt' then
      OK (Counters (counter c) (counter_n c) (S (counter_iupac c))
                   (counter_snv c) (counter_indel c))
    else OK c.

(** The body of the loop over the lines of the variants file. *)
Definition variants_body (indel : bool) (c : counters) (line : string)
    : result counters :=
  if re_match variants_header line then OK c
  else
    let data := split TAB line in
    if indel then
      alt ← py_index data 3;
      if 1 <? String.length alt then count_ambiguity data (count_indel c)
      else
        alt' ← py_index data 3;
        if String.length alt' =? 1 then count_ambiguity data (count_snv c)
        else count_ambiguity data c
    else
      alt ← py_index data 3;
      if String.length alt =? 1 then count_ambiguity data (count_snv c)
      else OK c.

Definition get_total_variants (file : string) (indel : bool)
    : result variant_counts :=
  c ← for_each (variants_body indel) (readlines file) (Counters 0 0 0 0 0);
  OK (VariantCounts (counter c) (counter_n c) (counter_iupac c)
                    (counter_snv c) (counter_indel c)).

(** ** [get_qc_data] *)

Record qc_fields : Type := QcFields {
  sample_name : string;
  pct_n_bases : string;
  pct_covered_bases : string;
  qc_pass : string
}.

(** The body of the loop: [data] is [None] until its first assignment. *)
Definition qc_body (data : option (list string)) (line : string)
    : result (option (list string)) :=
  if re_match "sample_name" line then OK data
  else OK (Some (split COMMA (strip line))).

(** The dictionary display of the [return] statement. *)
Definition qc_project (data : list string) : result qc_fields :=
  d0 ← py_index data 0;
  d1 ← py_index data 1;
  d2 ← py_index data 2;
  d6 ← py_index data 6;
  OK (QcFields d0 d1 d2 d6).

Definition get_qc_data (file : string) : result qc_fields :=
  data ← for_each qc_body (readlines file) None;
  match data with
  | None => Err UnboundLocalError
  | Some d => qc_project d
  end.

(** ** [import_ct_data] *)

Definition metadata_header : string := "sample" +:+ String TAB "ct".

(** [data[tmp_data[0]] = tmp_data[1]]: the right-hand side is evaluated
    first. *)
Definition ct_body (data : gmap string string) (line : string)
    : result (gmap string string) :=
  if re_match metadata_header (lower line) then OK data
  else
    let tmp_data := split TAB (strip line) in
    v ← py_index tmp_data 1;
    k ← py_index tmp_data 0;
    OK (<[k := v]> data).

Definition import_ct_data (file : string) : result (gmap string string) :=
  for_each ct_body (readlines file) ∅.

(** ** [get_coverage_stats] *)

(** The blanks [int()] skips around an ASCII literal. *)
Definition isspace_int (c : ascii) : bool :=
  let n := nat_of_ascii c in
  ((9 <=? n) && (n <=? 13)) || (n =? 32).

Fixpoint lstrip_int (s : string) : string :=
  match s with
  | EmptyString => EmptyString
  | String c s' => if isspace_int c then lstrip_int s' else s
  end.

Fixpoint rstrip_int (s : string) : string :=
  match s with
  | EmptyString => EmptyString
  | String c s' =>
      match rstrip_int s' with
      | EmptyString => if isspace_int c then EmptyString else String c EmptyString
      | r => String c r
      end
  end.

Definition digit_of (c : ascii) : option Z :=
  let n := nat_of_ascii c in
  if (48 <=? n) && (n <=? 57) then Some (Z.of_nat (n - 48)) else None.

(** Decimal digits, with single underscores allowed between digits;
    [after_digit] tells whether the previous character was a digit. *)
Fixpoint digits (acc : Z) (after_digit : bool) (s : string) : option Z :=
  match s with
  | EmptyString => if after_digit then Some acc else None
  | String c s' =>
      match digit_of c with
      | Some d => digits (10 * acc + d) true s'
      | None =>
          if Ascii.eqb c "_"%char && after_digit then digits acc false s' else None
      end
  end.

(** The number of decimal digits of a literal (underscores apart). *)
Fixpoint count_digits (s : string) : nat :=
  match s with
  | EmptyString => 0
  | String c s' =>
      match digit_of c with
      | Some _ => S (count_digits s')
      | None => count_digits s'
      end
  end.

(** The interpreter's limit on the digits of a literal that [int]
    converts (its default value). *)
Definition int_max_str_digits : nat := 4300.

(** [int(s)] in base 10: blanks around, an optional sign, digits; a
    literal of more digits than the limit is refused. *)
Definition py_int (s : string) : result Z :=
  let body := rstrip_int (lstrip_int s) in
  let signed :=
    match body with
    | String "-"%char rest => (-1, rest)%Z
    | String "+"%char rest => (1%Z, rest)
    | _ => (1%Z, body)
    end in
  if int_max_str_digits <? count_digits signed.2 then Err ValueError
  else
    match digits 0 false signed.2 with
    | Some n => OK (signed.1 * n)%Z
    | None => Err ValueError
    end.

Fixpoint insert_sorted (x : Z) (l : list Z) : list Z :=
  match l with
  | [] => [x]
  | y :: l' => if (x <=? y)%Z then x :: l else y :: insert_sorted x l'
  end.

(** [sorted(data)]. *)
Definition sorted (l : list Z) : list Z := foldr insert_sorted [] l.

Definition sum_Z (l : list Z) : Z := foldr Z.add 0%Z l.

(** A number that [statistics] returns: an [int], or a [float] carried
    as the rational it denotes. *)
Inductive number : Type :=
| PyInt (z : Z)
| PyFloat (q : Q).

(** [n / d] rounded to the nearest integer, ties to the even one, for
    [0 <= n] and [0 < d]. *)
Definition round_half_even (n d : Z) : Z :=
  let m := (n / d)%Z in
  match (2 * (n mod d) ?= d)%Z with
  | Lt => m
  | Gt => (m + 1)%Z
  | Eq => if Z.even m then m else (m + 1)%Z
  end.

(** The exponent of [a / b] for [0 < a] and [0 < b]: the [e] with
    [2^e <= a / b < 2^(e+1)]. *)
Definition quotient_exponent (a b : Z) : Z :=
  let e := (Z.log2 a - Z.log2 b)%Z in
  if (a * 2 ^ Z.max 0 (- e) <? b * 2 ^ Z.max 0 e)%Z then (e - 1)%Z else e.

(** [a / b] on two [int]s, for [0 < b]: the double nearest to the
    quotient, ties to even.  A double has 53 significant bits and its
    last bit weighs [2^-1074] at least; a quotient that rounds to
    [2^1024] or more is too large for a float.  (A negative quotient
    that rounds to zero is carried as 0.) *)
Definition true_divide (a b : Z) : result number :=
  if (a =? 0)%Z then OK (PyFloat 0)
  else
    let e := quotient_exponent (Z.abs a) b in
    let u := Z.max (e - 52) (-1074) in
    let m := round_half_even (Z.abs a * 2 ^ Z.max 0 (- u)) (b * 2 ^ Z.max 0 u) in
    if (2 ^ 1024 <=? m * 2 ^ Z.max 0 u)%Z then Err OverflowError
    else OK (PyFloat (Qred (Qmake (Z.sgn a * m * 2 ^ Z.max 0 u)
                                  (Z.to_pos (2 ^ Z.max 0 (- u)))))).

(** [statistics.mean] on integers: the exact quotient of the sum by the
    number of values when it is an integer, the quotient as a float
    otherwise. *)
Definition statistics_mean (data : list Z) : result number :=
  match data with
  | [] => Err StatisticsError
  | _ =>
      let total := sum_Z data in
      let n := Z.of_nat (length data) in
      if (total mod n =? 0)%Z then OK (PyInt (total / n)) else true_divide total n
  end.

(** [statistics.median] on integers: the middle value of the sorted
    data, or half the sum of the two middle values, as a float. *)
Definition statistics_median (data : list Z) : result number :=
  let s := sorted data in
  let n := length s in
  if n =? 0 then Err StatisticsError
  else if n mod 2 =? 1 then OK (PyInt (nth (n / 2) s 0%Z))
  else true_divide (nth (n / 2 - 1) s 0%Z + nth (n / 2) s 0%Z) 2.

Record coverage_stats : Type := CoverageStats {
  mean : number;
  median : number
}.

Definition coverage_header : string :=
  "reference_name" +:+ String TAB "start" +:+ String TAB "end".

Definition coverage_body (depth : list Z) (line : string) : result (list Z) :=
  if re_match coverage_header line then OK depth
  else
    let data := split TAB (strip line) in
    d7 ← py_index data 7;
    d ← py_int d7;
    OK (depth ++ [d]).

Definition get_coverage_stats (file : string) : result coverage_stats :=
  depth ← for_each coverage_body (readlines file) [];
  mean_depth ← statistics_mean depth;
  median_depth ← statistics_median depth;
  OK (CoverageStats mean_depth median_depth).

(** ** [create_qc_summary_line] *)

(** The summary dictionary.  The three dictionaries merged into it by
    [summary.update] have pairwise distinct literal keys, so each keeps
    its entries; [ct] is the entry added last. *)
Record summary : Type := Summary {
  summary_variants : variant_counts;
  summary_qc : qc_fields;
  summary_coverage : coverage_stats;
  ct : string
}.

(** [d[k]] on a dictionary. *)
Definition py_getitem (d : gmap string string) (k : string) : result string :=
  match d !! k with
  | Some v => OK v
  | None => Err KeyError
  end.

Definition create_qc_summary_line (var_file qc_file cov_file meta_file : string)
    (indel : bool) : result summary :=
  variants ← get_total_variants var_file indel;
  qc ← get_qc_data qc_file;
  coverage ← get_coverage_stats cov_file;
  meta_data ← import_ct_data meta_file;
  ct ← py_getitem meta_data (sample_name qc);
  OK (Summary variants qc coverage ct).

(** ** [collect_qc_summary_data] *)

Definition summary_header : string :=
  "sample_name" +:+ String TAB "pct_n_bases" +:+ String TAB "pct_covered_bases".

Definition collect_body (data : list string) (line : string) : list string :=
  if re_match summary_header line then data else data ++ [rstrip line].

(** [files] holds the text of the files that [glob.glob] matched, in
    the order it listed them. *)
Definition collect_qc_summary_data (files : list string) : list string :=
  foldl (fun data file => foldl collect_body data (readlines file)) [] files.

(** * Vocabulary of the properties *)

Fixpoint count_char (sep : ascii) (s : string) : nat :=
  match s with
  | EmptyString => 0
  | String c s' => (if Ascii.eqb c sep then 1 else 0) + count_char sep s'
  end.

(** The lines of a file that the loop does not skip as a header. *)
Definition data_lines (is_header : string → bool) (lines : list string) : list string :=
  filter (λ line, is_header line = false) lines.

Definition rows_except (is_header : string → bool) (file : string) : list string :=
  data_lines is_header (readlines file).

Definition variants_rows : string → list string :=
  rows_except (re_match variants_header).
Definition qc_rows : string → list string :=
  rows_except (re_match "sample_name").
Definition coverage_rows : string → list string :=
  rows_except (re_match coverage_header).
Definition ct_rows : string → list string :=
  rows_except (λ line, re_match metadata_header (lower line)).
Definition summary_rows : string → list string :=
  rows_except (re_match summary_header).

(** The balance of the counters of [get_total_variants]. *)
Definition balanced (c : counters) : Prop :=
  counter c = counter_snv c + counter_indel c.

(** The ALT field of a row of the variants table: the fourth
    tab-delimited field of the line as read (a field that ends the line
    carries the line's newline). *)
Definition ALT (line : string) : option string := split TAB line !! 3.

(** The ALT field of [line] exists and satisfies [p]. *)
Definition alt_is (p : string → bool) (line : string) : bool :=
  match ALT line with
  | Some alt => p alt
  | None => false
  end.

(** The ALT fields that count as an SNV, as an N call and as an IUPAC
    call when indels are left out. *)
Definition snv (alt : string) : bool := String.length alt =? 1.
Definition snv_n (alt : string) : bool := snv alt && is_variant_n alt.
Definition snv_iupac (alt : string) : bool :=
  snv alt && negb (is_variant_n alt) && is_variant_iupac alt.

(** The rows whose ALT field satisfies [p]. *)
Definition alt_rows (p : string → bool) (rows : list string) : list string :=
  filter (λ line, alt_is p line = true) rows.

(** [s] contains, in either case, one of the letters of [letters]
    (which are given in upper case). *)
Definition mentions (letters s : string) : Prop :=
  ∃ c l, c ∈ String.list_ascii_of_string s ∧ l ∈ String.list_ascii_of_string letters ∧
         (c = l ∨ c = lower_char l).

Definition IUPAC : string := "RYSWKMBDHV".

(** The same test on one character, as a boolean. *)
Definition letter_ci (letters : string) (c : ascii) : bool :=
  existsb (λ l, Ascii.eqb c l || Ascii.eqb c (lower_char l))
          (String.list_ascii_of_string letters).

(** The columns of a row of the metadata table. *)
Definition columns (line : string) : list string := split TAB (strip line).

(** The rows of the metadata table for the sample [name]. *)
Definition rows_of (name : string) (rows : list string) : list string :=
  filter (λ line, columns line !! 0 = Some name) rows.

(** ** Building inputs for the examples *)

Fixpoint join (sep : ascii) (fields : list string) : string :=
  match fields with
  | [] => EmptyString
  | [f] => f
  | f :: rest => f +:+ String sep (join sep rest)
  end.

(** One line of a table, newline included. *)
Definition row (sep : ascii) (fields : list string) : string :=
  join sep fields +:+ String LF EmptyString.

Definition text (rows : list string) : string := foldr String.append EmptyString rows.

Definition no_counts : counters := Counters 0 0 0 0 0.

(** A variants table: header, then rows with ALT "A", "N", "AT", "y". *)
Definition variants_example : string :=
  text [ row TAB ["REGION"; "POS"; "REF"; "ALT"; "REF_DP"];
         row TAB ["MN908947.3"; "241"; "C"; "A"; "10"];
         row TAB ["MN908947.3"; "3037"; "C"; "N"; "12"];
         row TAB ["MN908947.3"; "11287"; "G"; "AT"; "7"];
         row TAB ["MN908947.3"; "14408"; "C"; "y"; "9"] ].

(** A variants table with a row of three fields. *)
Definition variants_short_row : string :=
  text [ row TAB ["REGION"; "POS"; "REF"; "ALT"; "REF_DP"];
         row TAB ["MN908947.3"; "241"; "C"; "T"; "10"];
         row TAB ["MN908947.3"; "3037"; "C"] ].

(** A coverage table that holds its header and nothing else. *)
Definition coverage_header_only : string :=
  text [ row TAB ["reference_name"; "start"; "end"; "position"; "amplicon_id";
                  "pool_id"; "read_group"; "depth"] ].

(** QC files: a header alone; a data line of six fields; two data lines. *)
Definition qc_header_line : string :=
  row COMMA ["sample_name"; "pct_N_bases"; "pct_covered_bases";
             "longest_no_N_run"; "num_aligned_reads"; "fasta"; "qc_pass"].

Definition qc_header_only : string := text [qc_header_line].

Definition qc_six_fields : string :=
  text [ qc_header_line;
         row COMMA ["s1"; "0.50"; "99.50"; "29000"; "100000"; "s1.fa"] ].

Definition qc_two_lines : string :=
  text [ qc_header_line;
         row COMMA ["s1"; "0.50"; "99.50"; "29000"; "100000"; "s1.fa"; "TRUE"];
         row COMMA ["s2"; "12.00"; "88.00"; "9000"; "5000"; "s2.fa"; "FALSE"] ].

(** Metadata tables: sample s1 twice; the same with a row that has no
    ct column. *)
Definition metadata_duplicates : string :=
  text [ row TAB ["sample"; "ct"];
         row TAB ["s1"; "20.5"];
         row TAB ["s2"; "31.0"];
         row TAB ["s1"; "24.1"] ].

Definition metadata_missing_column : string :=
  text [ row TAB ["sample"; "ct"];
         row TAB ["s1"; "20.5"];
         row TAB ["s1"; "24.1"];
         row TAB ["s2"] ].

(** The four files of one sample, s1, whose metadata table lists s2
    only; and a coverage table with two rows. *)
Definition qc_one_line : string :=
  text [ qc_header_line;
         row COMMA ["s1"; "0.50"; "99.50"; "29000"; "100000"; "s1.fa"; "TRUE"] ].

Definition metadata_without_s1 : string :=
  text [ row TAB ["sample"; "ct"]; row TAB ["s2"; "31.0"] ].

Definition coverage_two_rows : string :=
  text [ row TAB ["reference_name"; "start"; "end"; "position"; "amplicon_id";
                  "pool_id"; "read_group"; "depth"];
         row TAB ["MN908947.3"; "0"; "1"; "1"; "1"; "1"; "a"; "10"];
         row TAB ["MN908947.3"; "1"; "2"; "2"; "1"; "1"; "a"; "14"] ].

(** Two summary files, each with its header and two data lines. *)
Definition summary_header_line : string :=
  row TAB ["sample_name"; "pct_n_bases"; "pct_covered_bases"; "total_variants";
           "total_snv"; "total_indel"; "total_n"; "total_iupac"; "mean_depth";
           "median_depth"; "ct"; "qc_pass"].

Definition summary_line (name : string) : string :=
  row TAB [name; "0.50"; "99.50"; "4"; "3"; "1"; "1"; "1"; "12"; "12"; "20.5"; "TRUE"].

Definition summary_file_1 : string :=
  text [summary_header_line; summary_line "s1"; summary_line "s2"].

Definition summary_file_2 : string :=
  text [summary_header_line; summary_line "s3"; summary_line "s4"].

(** ** What a row adds to each counter *)

(** The tests [get_total_variants] applies to the ALT field of a row,
    for either setting of [indel]: whether the row adds to
    [total_variants], [total_snv], [total_indel], [total_n] and
    [total_iupac]. *)
Definition adds_variant (indel : bool) (alt : string) : bool :=
  if indel then 1 <=? String.length alt else String.length alt =? 1.
Definition adds_snv (alt : string) : bool := String.length alt =? 1.
Definition adds_indel (indel : bool) (alt : string) : bool :=
  indel && is_indel alt.
Definition adds_n (indel : bool) (alt : string) : bool :=
  (indel || (String.length alt =? 1)) && is_variant_n alt.
Definition adds_iupac (indel : bool) (alt : string) : bool :=
  (indel || (String.length alt =? 1)) && negb (is_variant_n alt) && is_variant_iupac alt.

(** The counts of a list of rows. *)
Definition tally (indel : bool) (rows : list string) : variant_counts :=
  VariantCounts (length (alt_rows (adds_variant indel) rows))
                (length (alt_rows (adds_n indel) rows))
                (length (alt_rows (adds_iupac indel) rows))
                (length (alt_rows adds_snv rows))
                (length (alt_rows (adds_indel indel) rows)).

(** Field by field sum of two results. *)
Definition add_counts (r1 r2 : variant_counts) : variant_counts :=
  VariantCounts (total_variants r1 + total_variants r2)
                (total_n r1 + total_n r2)
                (total_iupac r1 + total_iupac r2)
                (total_snv r1 + total_snv r2)
                (total_indel r1 + total_indel r2).

(** A text that is empty or ends with a newline: appending to it
    starts a new line. *)
Fixpoint complete (text : string) : bool :=
  match text with
  | EmptyString => true
  | String c EmptyString => Ascii.eqb c LF
  | String _ rest => complete rest
  end.

(** Two variants tables, the first one complete. *)
Definition variants_part_1 : string :=
  text [ row TAB ["REGION"; "POS"; "REF"; "ALT"; "REF_DP"];
         row TAB ["MN908947.3"; "241"; "C"; "T"; "10"];
         row TAB ["MN908947.3"; "3037"; "C"; "+NA"; "12"] ].

Definition variants_part_2 : string :=
  text [ row TAB ["MN908947.3"; "11287"; "G"; "r"; "7"];
         row TAB ["MN908947.3"; "14408"; "C"; ""; "9"] ].

(** The text holds ASCII characters only. *)
Fixpoint ascii_only (s : string) : bool :=
  match s with
  | EmptyString => true
  | String c rest => (nat_of_ascii c <? 128) && ascii_only rest
  end.

(** The text ends with a blank. *)
Fixpoint ends_blank (s : string) : bool :=
  match s with
  | EmptyString => false
  | String c EmptyString => isspace c
  | String _ rest => ends_blank rest
  end.

(** A QC file whose data line is followed by an empty line. *)
Definition qc_trailing_blank : string :=
  text [ row COMMA ["sample_name"; "pct_N_bases"; "pct_covered_bases";
                    "longest_no_N_run"; "num_aligned_reads"; "fasta"; "qc_pass"];
         row COMMA ["s1"; "0.50"; "99.50"; "29000"; "100000"; "s1.fa"; "TRUE"];
         row COMMA [""] ].

(** The text begins with a blank. *)
Definition starts_blank (s : string) : bool :=
  match s with
  | EmptyString => false
  | String c _ => isspace c
  end.

(** The text holds blanks only. *)
Fixpoint blank (s : string) : bool :=
  match s with
  | EmptyString => true
  | String c rest => isspace c && blank rest
  end.

(** A metadata table whose second row has an empty ct cell. *)
Definition metadata_empty_ct : string :=
  text [ row TAB ["sample"; "ct"];
         row TAB ["s1"; "20.5"];
         row TAB ["s2"; ""] ].

(** The value of a number. *)
Definition number_value (x : number) : Q :=
  match x with
  | PyInt z => inject_Z z
  | PyFloat q => q
  end.

(** The depth a row of the coverage table holds: column 7 of the
    stripped line, read as an integer. *)
Definition depth_of (line : string) (d : Z) : Prop :=
  ∃ field, columns line !! 7 = Some field ∧ py_int field = OK d.

(** ** [write_qc_summary] and [write_qc_summary_header] *)

(** [print(s)]: the text is written to the standard output, followed
    by a newline; [stdout] is what was written before. *)
Definition print (s : string) (stdout : string) : string :=
  stdout +:+ s +:+ String LF EmptyString.

(** [str(n)] for a count. *)
Definition str_nat (n : nat) : string :=
  DecimalString.NilEmpty.string_of_uint (Nat.to_uint n).

Section Printing.

(** [str(x)] for a mean or a median (an [int] when the quotient is
    exact, a [float] otherwise): the decimal text Python prints for
    it is not modelled and stays a parameter. *)
Variable str_number : number → string.

(** The twelve columns of the line, in the order of the list that is
    joined. *)
Definition summary_columns (s : summary) : list string :=
  [ sample_name (summary_qc s);
    pct_n_bases (summary_qc s);
    pct_covered_bases (summary_qc s);
    str_nat (total_variants (summary_variants s));
    str_nat (total_snv (summary_variants s));
    str_nat (total_indel (summary_variants s));
    str_nat (total_n (summary_variants s));
    str_nat (total_iupac (summary_variants s));
    str_number (mean (summary_coverage s));
    str_number (median (summary_coverage s));
    ct s;
    qc_pass (summary_qc s) ].

Definition write_qc_summary (s : summary) (stdout : string) : string :=
  let summary_line := join TAB (summary_columns s) in
  print summary_line stdout.

End Printing.

(** The default value of [header]. *)
Definition default_header : list string :=
  [ "sample_name"; "pct_n_bases"; "pct_covered_bases"; "total_variants";
    "total_snv"; "total_indel"; "total_n"; "total_iupac"; "mean_depth";
    "median_depth"; "ct"; "qc_pass" ].

Definition write_qc_summary_header (header : list string) (stdout : string) : string :=
  print (join TAB header) stdout.

(** The summary file of one sample: the header, then its line. *)
Definition summary_file (str_number : number → string) (s : summary) : string :=
  write_qc_summary str_number s (write_qc_summary_header default_header EmptyString).

(** A line that is read back as it was written: it holds no newline,
    does not end with a blank and does not start with the header. *)
Definition reads_back (line : string) : Prop :=
  count_char LF line = 0 ∧ rstrip line = line ∧
  re_match summary_header line = false.

(** A summary and a number format for the examples. *)
Definition summary_s1 : summary :=
  Summary (VariantCounts 4 1 1 3 1) (QcFields "s1" "0.50" "99.50" "TRUE")
          (CoverageStats (PyInt 12) (PyFloat (Qmake 12 1))) "24.1".

Definition str_whole (x : number) : string :=
  match x with
  | PyInt z => str_nat (Z.to_nat z)
  | PyFloat q => str_nat (Z.to_nat (Qnum q / Zpos (Qden q))) +:+ ".0"
  end.

(** * Properties *)

(** ** The loop and the result monad *)

Lemma bind_OK {A B} (r : result A) (f : A → result B) (b : B) :
  r ≫= f = OK b → ∃ a, r = OK a ∧ f a = OK b.
Proof. destruct r as [a|e]; simpl; [eauto | discriminate]. Qed.

Lemma bind_of_OK {A B} (a : A) (f : A → result B) : OK a ≫= f = f a.
Proof. reflexivity. Qed.

(** An invariant of the body is an invariant of the loop. *)
Lemma for_each_invariant {S} (body : S → string → result S) (P : S → Prop) :
  (∀ st line st', P st → body st line = OK st' → P st') →
  ∀ lines st st', P st → for_each body lines st = OK st' → P st'.
Proof.
  intros Hbody lines. induction lines as [|l lines IH]; intros st st' HP; simpl.
  - intros [= <-]. exact HP.
  - intros (st1 & H1 & H2)%bind_OK. eapply IH; [|exact H2]. eauto.
Qed.

(** A body that can only raise [e], and does raise on some line of the
    file, makes the loop raise [e]. *)
Lemma for_each_raises {S} (body : S → string → result S) (e : exn) (bad : string → Prop) :
  (∀ st line e', body st line = Err e' → e' = e) →
  (∀ st line, bad line → body st line = Err e) →
  ∀ lines st, Exists bad lines → for_each body lines st = Err e.
Proof.
  intros Honly Hbad lines. induction lines as [|l lines IH]; intros st Hex.
  - inversion Hex.
  - simpl. destruct (body st l) as [st'|e'] eqn:Hb.
    + simpl. apply IH. inversion Hex as [? ? Hl|]; subst; [|done].
      rewrite (Hbad st l Hl) in Hb. discriminate.
    + simpl. f_equal. eauto.
Qed.

(** ** Fields and lines *)

Lemma split_nonempty sep s : ∃ f fs, split sep s = f :: fs.
Proof.
  induction s as [|c s IH]; simpl; [eauto|].
  destruct (Ascii.eqb c sep); [eauto|].
  destruct IH as (f & fs & ->). eauto.
Qed.

(** A line has one field more than it has separators. *)
Lemma split_length sep s : length (split sep s) = S (count_char sep s).
Proof.
  induction s as [|c s IH]; simpl; [done|].
  destruct (Ascii.eqb c sep); simpl; [by rewrite IH|].
  destruct (split_nonempty sep s) as (f & fs & Hs). rewrite Hs in IH |- *.
  exact IH.
Qed.

Lemma py_index_short {A} (l : list A) i : length l ≤ i → py_index l i = Err IndexError.
Proof. intros H. unfold py_index. by rewrite (lookup_ge_None_2 l i H). Qed.

Lemma py_index_OK {A} (l : list A) i x : py_index l i = OK x ↔ l !! i = Some x.
Proof. unfold py_index. destruct (l !! i); split; congruence. Qed.

Lemma py_index_Err {A} (l : list A) i e : py_index l i = Err e → e = IndexError.
Proof. unfold py_index. destruct (l !! i); congruence. Qed.

(** ** [get_total_variants]: the balance of the counters *)

Lemma count_ambiguity_counts data c c' :
  count_ambiguity data c = OK c' →
  counter c' = counter c ∧ counter_snv c' = counter_snv c ∧
  counter_indel c' = counter_indel c.
Proof.
  unfold count_ambiguity. destruct (py_index data 3) as [alt|]; simpl; [|done].
  destruct (is_variant_n alt); [by intros [= <-]|].
  destruct (is_variant_iupac alt); by intros [= <-].
Qed.

(** The processing of one line, with or without indels, keeps
    [counter == counter_snv + counter_indel]. *)
Lemma variants_body_balanced indel c line c' :
  balanced c → variants_body indel c line = OK c' → balanced c'.
Proof.
  unfold balanced, variants_body. intros Hc.
  destruct (re_match variants_header line); [by intros [= <-]|].
  destruct (py_index (split TAB line) 3) as [alt|]; simpl; [|by destruct indel].
  destruct indel.
  - destruct (1 <? String.length alt); [|destruct (String.length alt =? 1)];
      intros (-> & -> & ->)%count_ambiguity_counts; simpl; lia.
  - destruct (String.length alt =? 1); [|by intros [= <-]].
    intros (-> & -> & ->)%count_ambiguity_counts; simpl; lia.
Qed.

(** C1. Whenever [get_total_variants] returns with indels included, the
    returned counts satisfy
    [total_variants == total_snv + total_indel]: the equation holds for
    the initial counters and every line preserves it
    ([variants_body_balanced]). *)
Theorem total_variants_is_snv_plus_indel (file : string) (r : variant_counts) :
  get_total_variants file true = OK r →
  total_variants r = total_snv r + total_indel r.
Proof.
  unfold get_total_variants. intros (c & Hloop & [= <-])%bind_OK. simpl.
  change (balanced c).
  eapply (for_each_invariant (variants_body true) balanced); [| |exact Hloop].
  - intros st line st' Hst Hb. by eapply variants_body_balanced.
  - reflexivity.
Qed.

Lemma total_variants_is_snv_plus_indel_witness :
  get_total_variants variants_example true = OK (VariantCounts 4 1 1 3 1) ∧
  4 = 3 + 1.
Proof.
  split; [vm_compute; reflexivity|].
  apply (total_variants_is_snv_plus_indel variants_example (VariantCounts 4 1 1 3 1)).
  vm_compute; reflexivity.
Defined.

(** ** [get_total_variants]: N and IUPAC codes *)

Lemma letter_ci_spec letters c :
  letter_ci letters c = true ↔
  ∃ l, l ∈ String.list_ascii_of_string letters ∧ (c = l ∨ c = lower_char l).
Proof.
  unfold letter_ci. rewrite existsb_exists. split.
  - intros (l & Hin & [H|H]%orb_true_iff); exists l;
      (split; [by apply list_elem_of_In|]); apply Ascii.eqb_eq in H; tauto.
  - intros (l & Hin & H). exists l. split; [by apply list_elem_of_In|].
    apply orb_true_iff. destruct H as [->| ->]; [left|right]; apply Ascii.eqb_refl.
Qed.

Lemma re_search_upper cls s :
  re_search cls (upper s) = true ↔
  ∃ c, c ∈ String.list_ascii_of_string s ∧ in_class cls (upper_char c) = true.
Proof.
  induction s as [|a s IH]; simpl.
  - split; [discriminate|]. intros (c & Hc & _). by apply elem_of_nil in Hc.
  - rewrite orb_true_iff, IH. split.
    + intros [H|(c & Hc & H)]; [exists a | exists c]; split; auto; constructor; done.
    + intros (c & [->|Hc]%elem_of_cons & H); [by left|]. right. eauto.
Qed.

Lemma in_class_N c : in_class "Nn" (upper_char c) = letter_ci "N" c.
Proof. destruct c as [[] [] [] [] [] [] [] []]; vm_compute; reflexivity. Qed.

Lemma in_class_IUPAC c : in_class "RYSWKMBDHV" (upper_char c) = letter_ci IUPAC c.
Proof. destruct c as [[] [] [] [] [] [] [] []]; vm_compute; reflexivity. Qed.

Lemma mentions_letter_ci letters s :
  mentions letters s ↔
  ∃ c, c ∈ String.list_ascii_of_string s ∧ letter_ci letters c = true.
Proof.
  unfold mentions. split.
  - intros (c & l & Hc & Hl & H). exists c. split; [done|].
    apply letter_ci_spec. eauto.
  - intros (c & Hc & (l & Hl & H)%letter_ci_spec). eauto.
Qed.

(** [is_variant_n]: the variant contains an N in either case. *)
Lemma is_variant_n_spec variant : is_variant_n variant = true ↔ mentions "N" variant.
Proof.
  unfold is_variant_n. rewrite re_search_upper, mentions_letter_ci.
  by setoid_rewrite in_class_N.
Qed.

(** [is_variant_iupac]: the variant contains one of R, Y, S, W, K, M,
    B, D, H, V in either case. *)
Lemma is_variant_iupac_spec variant :
  is_variant_iupac variant = true ↔ mentions IUPAC variant.
Proof.
  unfold is_variant_iupac. rewrite re_search_upper, mentions_letter_ci.
  by setoid_rewrite in_class_IUPAC.
Qed.

Lemma count_ambiguity_spec data c c' :
  count_ambiguity data c = OK c' →
  ∃ alt, data !! 3 = Some alt ∧
    c' = if is_variant_n alt then
           Counters (counter c) (S (counter_n c)) (counter_iupac c)
                    (counter_snv c) (counter_indel c)
         else if is_variant_iupac alt then
           Counters (counter c) (counter_n c) (S (counter_iupac c))
                    (counter_snv c) (counter_indel c)
         else c.
Proof.
  unfold count_ambiguity. destruct (py_index data 3) as [alt|] eqn:Halt; simpl; [|done].
  apply py_index_OK in Halt. intros H. exists alt. split; [done|].
  destruct (is_variant_n alt); [congruence|].
  destruct (is_variant_iupac alt); congruence.
Qed.



(** ** [get_total_variants]: indels left out *)

Lemma alt_rows_cons p line rows :
  length (alt_rows p (line :: rows)) =
  (if alt_is p line then 1 else 0) + length (alt_rows p rows).
Proof.
  unfold alt_rows. rewrite filter_cons.
  destruct (alt_is p line); case_decide; simpl; congruence.
Qed.

Lemma data_lines_cons (is_header : string → bool) line lines :
  data_lines is_header (line :: lines) =
  if is_header line then data_lines is_header lines
  else line :: data_lines is_header lines.
Proof.
  unfold data_lines. rewrite filter_cons.
  destruct (is_header line); case_decide; congruence.
Qed.

(** What one line does to the counters when indels are left out. *)
Lemma variants_body_snv_only c line c' :
  variants_body false c line = OK c' →
  if re_match variants_header line then c' = c
  else
    counter c' = counter c + (if alt_is snv line then 1 else 0) ∧
    counter_snv c' = counter_snv c + (if alt_is snv line then 1 else 0) ∧
    counter_indel c' = counter_indel c ∧
    counter_n c' = counter_n c + (if alt_is snv_n line then 1 else 0) ∧
    counter_iupac c' = counter_iupac c + (if alt_is snv_iupac line then 1 else 0).
Proof.
  unfold variants_body. destruct (re_match variants_header line); [congruence|].
  destruct (py_index (split TAB line) 3) as [alt|] eqn:Halt; simpl; [|done].
  apply py_index_OK in Halt. unfold alt_is, ALT, snv_n, snv_iupac, snv.
  rewrite Halt. destruct (String.length alt =? 1); simpl.
  - intros (alt' & Halt' & ->)%count_ambiguity_spec.
    assert (alt' = alt) as -> by congruence.
    destruct (is_variant_n alt), (is_variant_iupac alt); simpl; lia.
  - intros [= <-]. lia.
Qed.

Lemma variants_loop_snv_only lines c c' :
  for_each (variants_body false) lines c = OK c' →
  counter c' = counter c +
    length (alt_rows snv (data_lines (re_match variants_header) lines)) ∧
  counter_snv c' = counter_snv c +
    length (alt_rows snv (data_lines (re_match variants_header) lines)) ∧
  counter_indel c' = counter_indel c ∧
  counter_n c' = counter_n c +
    length (alt_rows snv_n (data_lines (re_match variants_header) lines)) ∧
  counter_iupac c' = counter_iupac c +
    length (alt_rows snv_iupac (data_lines (re_match variants_header) lines)).
Proof.
  revert c. induction lines as [|line lines IH]; intros c; cbn [for_each].
  - intros [= <-]. cbn. lia.
  - intros (c1 & Hbody & Hloop)%bind_OK.
    apply variants_body_snv_only in Hbody. specialize (IH _ Hloop).
    rewrite data_lines_cons.
    destruct (re_match variants_header line); [subst c1; exact IH|].
    rewrite !alt_rows_cons. lia.
Qed.

(** C3. When [get_total_variants] returns with indels left out,
    [total_indel] is 0, [total_variants] and [total_snv] both count the
    rows whose ALT field is one character long, and [total_n] and
    [total_iupac] count rows among those only; a row whose ALT field is
    longer than one character leaves all five counters as they were. *)
Theorem indels_left_out (file : string) (r : variant_counts) :
  get_total_variants file false = OK r →
  total_indel r = 0 ∧
  total_variants r = total_snv r ∧
  total_snv r = length (alt_rows snv (variants_rows file)) ∧
  total_n r = length (alt_rows snv_n (variants_rows file)) ∧
  total_iupac r = length (alt_rows snv_iupac (variants_rows file)) ∧
  (∀ c line alt, ALT line = Some alt → 1 < String.length alt →
     variants_body false c line = OK c).
Proof.
  unfold get_total_variants. intros (c & Hloop & [= <-])%bind_OK.
  apply variants_loop_snv_only in Hloop.
  unfold variants_rows, rows_except. cbn [total_indel total_variants total_snv
    total_n total_iupac] . cbn [counter counter_n counter_iupac counter_snv
    counter_indel no_counts] in Hloop.
  repeat split; try lia.
  intros c0 line alt Halt Hlen. unfold variants_body.
  destruct (re_match variants_header line); [done|].
  unfold ALT in Halt. apply py_index_OK in Halt. rewrite Halt. simpl.
  destruct (String.length alt =? 1) eqn:E; [|done].
  apply Nat.eqb_eq in E. lia.
Qed.

Lemma indels_left_out_witness :
  get_total_variants variants_example false = OK (VariantCounts 3 1 1 3 0) ∧
  0 = 0 ∧ 3 = 3 ∧
  3 = length (alt_rows snv (variants_rows variants_example)) ∧
  1 = length (alt_rows snv_n (variants_rows variants_example)) ∧
  1 = length (alt_rows snv_iupac (variants_rows variants_example)) ∧
  (∀ c line alt, ALT line = Some alt → 1 < String.length alt →
     variants_body false c line = OK c).
Proof.
  split; [vm_compute; reflexivity|].
  apply (indels_left_out variants_example (VariantCounts 3 1 1 3 0)).
  vm_compute; reflexivity.
Defined.

(** ** [get_total_variants]: rows that are too short *)

Lemma data_lines_elem (is_header : string → bool) line lines :
  line ∈ data_lines is_header lines ↔ line ∈ lines ∧ is_header line = false.
Proof. unfold data_lines. rewrite list_elem_of_filter. tauto. Qed.

Lemma count_ambiguity_Err data c e : count_ambiguity data c = Err e → e = IndexError.
Proof.
  unfold count_ambiguity.
  destruct (py_index data 3) as [alt|e'] eqn:Halt; simpl.
  - destruct (is_variant_n alt); [done|]. by destruct (is_variant_iupac alt).
  - intros [= <-]. by eapply py_index_Err.
Qed.

(** The only exception the body of the loop raises is [IndexError]. *)
Lemma variants_body_Err indel c line e :
  variants_body indel c line = Err e → e = IndexError.
Proof.
  unfold variants_body. destruct (re_match variants_header line); [done|].
  destruct (py_index (split TAB line) 3) as [alt|e'] eqn:Halt; simpl.
  - destruct indel.
    + destruct (1 <? String.length alt); [apply count_ambiguity_Err|].
      destruct (String.length alt =? 1); apply count_ambiguity_Err.
    + destruct (String.length alt =? 1); [apply count_ambiguity_Err|done].
  - apply py_index_Err in Halt as ->. destruct indel; congruence.
Qed.

Lemma variants_body_short indel c line :
  re_match variants_header line = false → length (split TAB line) < 4 →
  variants_body indel c line = Err IndexError.
Proof.
  intros Hh Hlen. unfold variants_body. rewrite Hh.
  rewrite (py_index_short (split TAB line) 3) by lia. by destruct indel.
Qed.

(** C4. A variants table with a row (a line that is not the header) of
    fewer than four tab-delimited fields makes [get_total_variants]
    raise [IndexError], a format error, with or without indels and
    whatever the other lines hold. *)
Theorem short_row_is_format_error (file : string) (indel : bool) (line : string) :
  line ∈ variants_rows file →
  length (split TAB line) < 4 →
  ∃ e, get_total_variants file indel = Err e ∧
       e = IndexError ∧ error_kind_of e = FormatError.
Proof.
  intros [Hin Hh]%data_lines_elem Hlen. exists IndexError.
  split; [|done]. unfold get_total_variants.
  rewrite (for_each_raises (variants_body indel) IndexError
             (λ l, re_match variants_header l = false ∧ length (split TAB l) < 4));
    [done| | |].
  - intros st l e. apply variants_body_Err.
  - intros st l [??]. by apply variants_body_short.
  - apply Exists_exists. eauto.
Qed.

Lemma short_row_is_format_error_witness :
  ∃ e, get_total_variants variants_short_row false = Err e ∧
       e = IndexError ∧ error_kind_of e = FormatError.
Proof.
  apply (short_row_is_format_error variants_short_row false
           (row TAB ["MN908947.3"; "3037"; "C"])).
  - vm_compute. do 1 constructor. constructor.
  - vm_compute. lia.
Defined.

(** ** [get_coverage_stats]: no data rows *)

Lemma for_each_headers_only {S} (is_header : string → bool)
    (body : S → string → result S) :
  (∀ st line, is_header line = true → body st line = OK st) →
  ∀ lines st, data_lines is_header lines = [] → for_each body lines st = OK st.
Proof.
  intros Hskip lines st. induction lines as [|line lines IH]; [done|].
  rewrite data_lines_cons. destruct (is_header line) eqn:Hh; [|done].
  intros Hrest. cbn [for_each]. rewrite (Hskip st line Hh), bind_of_OK. auto.
Qed.

(** C5. A coverage table without data rows (every line is skipped as
    the header) makes [get_coverage_stats] raise [StatisticsError], an
    empty-input error: no mean or median is returned. *)
Theorem no_depth_is_empty_input_error (file : string) :
  coverage_rows file = [] →
  ∃ e, get_coverage_stats file = Err e ∧
       e = StatisticsError ∧ error_kind_of e = EmptyInputError.
Proof.
  intros Hrows. exists StatisticsError. split; [|done].
  unfold get_coverage_stats.
  rewrite (for_each_headers_only (re_match coverage_header) coverage_body);
    [done| |exact Hrows].
  intros st line Hh. unfold coverage_body. by rewrite Hh.
Qed.

Lemma no_depth_is_empty_input_error_witness :
  ∃ e, get_coverage_stats coverage_header_only = Err e ∧
       e = StatisticsError ∧ error_kind_of e = EmptyInputError.
Proof.
  apply (no_depth_is_empty_input_error coverage_header_only).
  vm_compute; reflexivity.
Defined.

(** ** [get_qc_data]: the line that is projected *)

(** The loop never raises; it leaves in [data] the fields of the last
    line that is not a header. *)
Lemma qc_body_OK data line :
  qc_body data line =
  OK (if re_match "sample_name" line then data else Some (split COMMA (strip line))).
Proof. unfold qc_body. by destruct (re_match "sample_name" line). Qed.

Lemma qc_loop lines data :
  for_each qc_body lines data =
  OK (match last (data_lines (re_match "sample_name") lines) with
      | Some line => Some (split COMMA (strip line))
      | None => data
      end).
Proof.
  revert data. induction lines as [|line lines IH]; intros data; [done|].
  cbn [for_each]. rewrite data_lines_cons, qc_body_OK, bind_of_OK, IH.
  destruct (re_match "sample_name" line); [done|].
  rewrite last_cons. by destruct (last _).
Qed.

Lemma get_qc_data_last file :
  get_qc_data file =
  match last (qc_rows file) with
  | Some line => qc_project (split COMMA (strip line))
  | None => Err UnboundLocalError
  end.
Proof.
  unfold get_qc_data, qc_rows, rows_except. rewrite qc_loop. simpl.
  by destruct (last _).
Qed.

Lemma isspace_not_sep sep c :
  isspace sep = false → isspace c = true → Ascii.eqb c sep = false.
Proof.
  intros Hsep Hc. destruct (Ascii.eqb c sep) eqn:E; [|done].
  apply Ascii.eqb_eq in E. congruence.
Qed.

Lemma count_char_lstrip sep s :
  isspace sep = false → count_char sep (lstrip s) = count_char sep s.
Proof.
  intros Hsep. induction s as [|c s IH]; [done|]. simpl.
  destruct (isspace c) eqn:Hc; [|done].
  by rewrite (isspace_not_sep sep c Hsep Hc).
Qed.

Lemma count_char_rstrip sep s :
  isspace sep = false → count_char sep (rstrip s) = count_char sep s.
Proof.
  intros Hsep. induction s as [|c s IH]; [done|]. simpl.
  destruct (rstrip s) as [|c' r] eqn:Hr.
  - simpl in IH. rewrite <- IH. destruct (isspace c) eqn:Hc; simpl; [|done].
    by rewrite (isspace_not_sep sep c Hsep Hc).
  - simpl. simpl in IH. by rewrite IH.
Qed.

(** Stripping a line does not change the number of its fields. *)
Lemma split_strip_length sep line :
  isspace sep = false → length (split sep (strip line)) = length (split sep line).
Proof.
  intros Hsep. rewrite !split_length. unfold strip.
  by rewrite count_char_rstrip, count_char_lstrip.
Qed.

Lemma qc_project_short data : length data < 7 → qc_project data = Err IndexError.
Proof.
  intros Hlen. unfold qc_project.
  destruct (py_index data 0) as [d0|e0] eqn:H0; simpl;
    [|by apply py_index_Err in H0 as ->].
  destruct (py_index data 1) as [d1|e1] eqn:H1; simpl;
    [|by apply py_index_Err in H1 as ->].
  destruct (py_index data 2) as [d2|e2] eqn:H2; simpl;
    [|by apply py_index_Err in H2 as ->].
  rewrite (py_index_short data 6) by lia. done.
Qed.

(** C7. A QC file without a data line (every line is skipped as the
    header) makes [get_qc_data] raise [UnboundLocalError]; one whose
    data line (the last one, if there are several) has fewer than seven
    comma-delimited fields makes it raise [IndexError].  Both are
    format errors. *)
Theorem malformed_qc_is_format_error (file : string) :
  (qc_rows file = [] ∨
   ∃ line, last (qc_rows file) = Some line ∧ length (split COMMA line) < 7) →
  ∃ e, get_qc_data file = Err e ∧ error_kind_of e = FormatError ∧
       (qc_rows file = [] → e = UnboundLocalError) ∧
       (qc_rows file ≠ [] → e = IndexError).
Proof.
  rewrite get_qc_data_last. intros [Hnone|(line & Hlast & Hlen)].
  - rewrite Hnone. simpl. exists UnboundLocalError. by repeat split.
  - rewrite Hlast. exists IndexError.
    rewrite qc_project_short; [|by rewrite split_strip_length].
    split; [done|]. split; [done|]. split; [|done].
    intros Hnone. by rewrite Hnone in Hlast.
Qed.

Lemma malformed_qc_is_format_error_witness :
  (∃ e, get_qc_data qc_header_only = Err e ∧ error_kind_of e = FormatError ∧
        (qc_rows qc_header_only = [] → e = UnboundLocalError) ∧
        (qc_rows qc_header_only ≠ [] → e = IndexError)) ∧
  (∃ e, get_qc_data qc_six_fields = Err e ∧ error_kind_of e = FormatError ∧
        (qc_rows qc_six_fields = [] → e = UnboundLocalError) ∧
        (qc_rows qc_six_fields ≠ [] → e = IndexError)).
Proof.
  split.
  - apply (malformed_qc_is_format_error qc_header_only).
    left. vm_compute; reflexivity.
  - apply (malformed_qc_is_format_error qc_six_fields).
    right. exists (row COMMA ["s1"; "0.50"; "99.50"; "29000"; "100000"; "s1.fa"]).
    split; [vm_compute; reflexivity | vm_compute; lia].
Defined.

Example get_qc_data_two_lines :
  get_qc_data qc_two_lines = OK (QcFields "s2" "12.00" "88.00" "FALSE").
Proof. vm_compute; reflexivity. Qed.

(** ** [import_ct_data]: repeated sample names *)

Lemma ct_body_OK data line k v :
  re_match metadata_header (lower line) = false →
  columns line !! 0 = Some k → columns line !! 1 = Some v →
  ct_body data line = OK (<[k := v]> data).
Proof.
  intros Hh Hk Hv. unfold ct_body. rewrite Hh. fold (columns line).
  unfold py_index. by rewrite Hv, Hk.
Qed.

Lemma ct_body_header data line :
  re_match metadata_header (lower line) = true → ct_body data line = OK data.
Proof. intros Hh. unfold ct_body. by rewrite Hh. Qed.

Lemma rows_of_cons name line rows :
  rows_of name (line :: rows) =
  if decide (columns line !! 0 = Some name) then line :: rows_of name rows
  else rows_of name rows.
Proof. unfold rows_of. by rewrite filter_cons. Qed.

(** On rows that all have their two columns the loop does not raise,
    and the entry of [name] is the ct of the last row of [name], or the
    entry it had before the loop when there is no such row. *)
Lemma ct_loop name lines (data : gmap string string) :
  Forall (λ line, 2 ≤ length (columns line))
         (data_lines (λ line, re_match metadata_header (lower line)) lines) →
  ∃ m : gmap string string,
    for_each ct_body lines data = OK m ∧
    m !! name =
      match last (rows_of name
               (data_lines (λ line, re_match metadata_header (lower line)) lines)) with
      | Some line => columns line !! 1
      | None => data !! name
      end.
Proof.
  revert data. induction lines as [|line lines IH]; intros data.
  - intros _. exists data. done.
  - rewrite data_lines_cons. cbn [for_each].
    destruct (re_match metadata_header (lower line)) eqn:Hh.
    + intros Hall. rewrite (ct_body_header data line Hh), bind_of_OK. by apply IH.
    + intros [Hline Hall]%Forall_cons.
      destruct (lookup_lt_is_Some_2 (columns line) 0) as [k Hk]; [lia|].
      destruct (lookup_lt_is_Some_2 (columns line) 1) as [v Hv]; [lia|].
      rewrite (ct_body_OK data line k v Hh Hk Hv), bind_of_OK.
      destruct (IH (<[k := v]> data) Hall) as (m & Hm & Hlook).
      exists m. split; [exact Hm|]. rewrite Hlook, rows_of_cons.
      case_decide as Hname.
      * assert (k = name) as -> by congruence.
        rewrite last_cons. destruct (last _); [done|].
        by rewrite lookup_insert_eq.
      * destruct (last _); [done|].
        rewrite lookup_insert_ne; [done|]. congruence.
Qed.

(** C8, amended. In a metadata table whose rows all have two
    tab-delimited columns or more once stripped, a sample name carried
    by two rows or more is no error: [import_ct_data] returns a mapping
    that binds the name to column 1 of the last of these rows. *)
Theorem last_duplicate_wins (file name : string) :
  Forall (λ line, 2 ≤ length (columns line)) (ct_rows file) →
  2 ≤ length (rows_of name (ct_rows file)) →
  ∃ (m : gmap string string) line v,
    import_ct_data file = OK m ∧
    last (rows_of name (ct_rows file)) = Some line ∧
    columns line !! 1 = Some v ∧
    m !! name = Some v.
Proof.
  intros Hall Hdup. unfold ct_rows, rows_except in *.
  destruct (ct_loop name (readlines file) ∅ Hall) as (m & Hm & Hlook).
  destruct (last (rows_of name _)) as [line|] eqn:Hlast.
  - assert (line ∈ data_lines (λ l, re_match metadata_header (lower l))
                               (readlines file)) as Hin.
    { apply last_Some_elem_of in Hlast. unfold rows_of in Hlast.
      by apply list_elem_of_filter in Hlast as [_ ?]. }
    rewrite Forall_forall in Hall. specialize (Hall line Hin).
    destruct (lookup_lt_is_Some_2 (columns line) 1) as [v Hv]; [lia|].
    exists m, line, v. rewrite Hlook, Hv. done.
  - apply last_None in Hlast. rewrite Hlast in Hdup. simpl in Hdup. lia.
Qed.

Lemma last_duplicate_wins_witness :
  ∃ (m : gmap string string) line v,
    import_ct_data metadata_duplicates = OK m ∧
    last (rows_of "s1" (ct_rows metadata_duplicates)) = Some line ∧
    columns line !! 1 = Some v ∧
    m !! "s1" = Some v.
Proof.
  apply (last_duplicate_wins metadata_duplicates "s1").
  - vm_compute. repeat constructor.
  - vm_compute. lia.
Defined.

(** C8, as stated, fails: this table has two rows for s1 and a row
    without a ct column, and [import_ct_data] raises [IndexError]
    instead of returning a mapping. *)
Lemma duplicate_names_counterexample :
  2 ≤ length (rows_of "s1" (ct_rows metadata_missing_column)) ∧
  import_ct_data metadata_missing_column = Err IndexError ∧
  ¬ ∃ m : gmap string string, import_ct_data metadata_missing_column = OK m.
Proof.
  assert (import_ct_data metadata_missing_column = Err IndexError) as Herr
    by (vm_compute; reflexivity).
  split; [vm_compute; lia|]. split; [exact Herr|].
  intros [m Hm]. rewrite Herr in Hm. discriminate.
Qed.

(** ** [create_qc_summary_line]: a sample absent from the metadata *)

(** C6, amended. When the variants table and the coverage table are
    reduced without an error, and the sample name read from the QC file
    is absent from the mapping built from the metadata table,
    [create_qc_summary_line] raises [KeyError], a missing-key error,
    and returns no summary. *)
Theorem absent_sample_is_missing_key_error
    (var_file qc_file cov_file meta_file : string) (indel : bool)
    (variants : variant_counts) (qc : qc_fields) (coverage : coverage_stats)
    (meta_data : gmap string string) :
  get_total_variants var_file indel = OK variants →
  get_qc_data qc_file = OK qc →
  get_coverage_stats cov_file = OK coverage →
  import_ct_data meta_file = OK meta_data →
  meta_data !! sample_name qc = None →
  ∃ e, create_qc_summary_line var_file qc_file cov_file meta_file indel = Err e ∧
       e = KeyError ∧ error_kind_of e = MissingKeyError.
Proof.
  intros Hvar Hqc Hcov Hmeta Habsent. exists KeyError. split; [|done].
  unfold create_qc_summary_line.
  rewrite Hvar, bind_of_OK, Hqc, bind_of_OK, Hcov, bind_of_OK, Hmeta, bind_of_OK.
  unfold py_getitem. by rewrite Habsent.
Qed.

Lemma absent_sample_is_missing_key_error_witness :
  ∃ e, create_qc_summary_line variants_example qc_one_line coverage_two_rows
         metadata_without_s1 true = Err e ∧
       e = KeyError ∧ error_kind_of e = MissingKeyError.
Proof.
  apply (absent_sample_is_missing_key_error
           variants_example qc_one_line coverage_two_rows metadata_without_s1 true
           (VariantCounts 4 1 1 3 1) (QcFields "s1" "0.50" "99.50" "TRUE")
           (CoverageStats (PyInt 12) (PyFloat (Qmake 12 1))) {["s2" := "31.0"]});
    vm_compute; reflexivity.
Defined.

(** C6, as stated, fails: the sample name s1 read from the QC file is
    absent from the mapping built from the metadata table, but the
    coverage table has no data row, and [create_qc_summary_line] raises
    [StatisticsError] before the metadata is read. *)
Lemma absent_sample_counterexample :
  get_qc_data qc_one_line = OK (QcFields "s1" "0.50" "99.50" "TRUE") ∧
  import_ct_data metadata_without_s1 = OK {["s2" := "31.0"]} ∧
  ({["s2" := "31.0"]} : gmap string string) !! "s1" = None ∧
  create_qc_summary_line variants_example qc_one_line coverage_header_only
    metadata_without_s1 true = Err StatisticsError ∧
  error_kind_of StatisticsError ≠ MissingKeyError.
Proof. repeat split; try (vm_compute; reflexivity). discriminate. Qed.

(** ** [collect_qc_summary_data]: headers dropped, order kept *)

Lemma collect_loop lines data :
  foldl collect_body data lines =
  data ++ map rstrip (data_lines (re_match summary_header) lines).
Proof.
  revert data. induction lines as [|line lines IH]; intros data.
  - by rewrite app_nil_r.
  - cbn [foldl]. rewrite IH, data_lines_cons. unfold collect_body.
    destruct (re_match summary_header line); [done|].
    by rewrite <- app_assoc.
Qed.

(** The lines collected from a list of files: file after file, the
    data lines of each in the order of the file, stripped on the right. *)
Lemma collect_files files data :
  foldl (λ data file, foldl collect_body data (readlines file)) data files =
  data ++ concat (map (λ file, map rstrip (summary_rows file)) files).
Proof.
  revert data. induction files as [|file files IH]; intros data.
  - by rewrite app_nil_r.
  - cbn [foldl map concat]. rewrite IH, collect_loop, <- app_assoc. done.
Qed.

Lemma re_match_empty lit : re_match lit EmptyString = true → lit = EmptyString.
Proof. by destruct lit. Qed.

(** A line that starts with [lit] once stripped on the right started
    with [lit] before. *)
Lemma re_match_rstrip lit s : re_match lit (rstrip s) = true → re_match lit s = true.
Proof.
  revert lit. induction s as [|c s IH]; intros lit; [done|].
  destruct lit as [|a lit]; [done|]. cbn [rstrip].
  destruct (rstrip s) as [|c' r] eqn:Hr.
  - destruct (isspace c); [done|]. cbn [re_match].
    intros [Hac Hlit]%andb_true_iff. apply re_match_empty in Hlit as ->.
    by rewrite Hac.
  - cbn [re_match]. intros [Hac Hlit]%andb_true_iff.
    rewrite Hac. by apply IH.
Qed.

(** C9. From two summary files of three lines each, one of them a
    header and two of them data lines, [collect_qc_summary_data]
    returns exactly four lines: the two data lines of the first file in
    their order, then the two of the second in theirs, each stripped of
    the blanks that end it; none of the four is a header. *)
Theorem two_files_four_lines (file1 file2 : string) :
  length (readlines file1) = 3 → length (summary_rows file1) = 2 →
  length (readlines file2) = 3 → length (summary_rows file2) = 2 →
  ∃ a b c d,
    summary_rows file1 = [a; b] ∧ summary_rows file2 = [c; d] ∧
    collect_qc_summary_data [file1; file2] = [rstrip a; rstrip b; rstrip c; rstrip d] ∧
    length (collect_qc_summary_data [file1; file2]) = 4 ∧
    Forall (λ line, re_match summary_header line = false)
           (collect_qc_summary_data [file1; file2]).
Proof.
  intros _ Hrows1 _ Hrows2.
  assert (collect_qc_summary_data [file1; file2] =
          map rstrip (summary_rows file1) ++ map rstrip (summary_rows file2)) as Hout.
  { unfold collect_qc_summary_data. rewrite collect_files.
    cbn [map concat]. by rewrite app_nil_r. }
  assert (Forall (λ line, re_match summary_header line = false)
                 (collect_qc_summary_data [file1; file2])) as Hdata.
  { rewrite Hout. apply Forall_app. split; apply Forall_map, Forall_forall;
      intros line [_ Hline]%data_lines_elem;
      destruct (re_match summary_header (rstrip line)) eqn:E; try done;
      apply re_match_rstrip in E; congruence. }
  destruct (summary_rows file1) as [|a [|b [|? ?]]] eqn:H1; try done.
  destruct (summary_rows file2) as [|c [|d [|? ?]]] eqn:H2; try done.
  exists a, b, c, d. rewrite Hout in *. done.
Qed.

Lemma two_files_four_lines_witness :
  ∃ a b c d,
    summary_rows summary_file_1 = [a; b] ∧ summary_rows summary_file_2 = [c; d] ∧
    collect_qc_summary_data [summary_file_1; summary_file_2] =
      [rstrip a; rstrip b; rstrip c; rstrip d] ∧
    length (collect_qc_summary_data [summary_file_1; summary_file_2]) = 4 ∧
    Forall (λ line, re_match summary_header line = false)
           (collect_qc_summary_data [summary_file_1; summary_file_2]).
Proof.
  apply (two_files_four_lines summary_file_1 summary_file_2);
    vm_compute; reflexivity.
Defined.

(** ** The worked examples of the specification *)

Example variants_end_to_end :
  get_total_variants
    (text [ row TAB ["REGION"; "POS"; "REF"; "ALT"; "REF_DP"];
            row TAB ["MN908947.3"; "241"; "C"; "A"; "10"];
            row TAB ["MN908947.3"; "3037"; "C"; "N"; "12"];
            row TAB ["MN908947.3"; "11287"; "G"; "AT"; "7"] ]) true
  = OK (VariantCounts 3 1 0 2 1).
Proof. vm_compute; reflexivity. Qed.

(** A field that ends its line carries the newline: an ALT in the last
    column of a four-column row is two characters long. *)
Example alt_in_last_column :
  ALT (row TAB ["MN908947.3"; "241"; "C"; "T"]) = Some (String "T" (String LF EmptyString)) ∧
  get_total_variants (row TAB ["MN908947.3"; "241"; "C"; "T"]) true
  = OK (VariantCounts 1 0 0 0 1).
Proof. split; vm_compute; reflexivity. Qed.

(** Depths 1, 2, 3, 4: mean 2.5 and median 2.5.  Depth 5 alone: mean 5
    and median 5, both of them [int]s. *)
Example mean_median_1234 :
  statistics_mean [1; 2; 3; 4]%Z = OK (PyFloat (Qmake 5 2)) ∧
  statistics_median [1; 2; 3; 4]%Z = OK (PyFloat (Qmake 5 2)).
Proof. split; vm_compute; reflexivity. Qed.

Example mean_median_5 :
  statistics_mean [5%Z] = OK (PyInt 5) ∧ statistics_median [5%Z] = OK (PyInt 5).
Proof. split; reflexivity. Qed.

(** Quotients are rounded as floats are: the mean of 1, 2, 2 is
    1.6666666666666667, the double next to 5/3; the median of two
    depths of [2^53 + 1] is [2^53]; and the mean of [10^309] and
    [10^309 + 1] is too large for a float. *)
Example mean_rounded :
  statistics_mean [1; 2; 2]%Z
  = OK (PyFloat (Qmake 7505999378950827 4503599627370496)).
Proof. vm_compute; reflexivity. Qed.

Example median_rounded :
  statistics_median [2 ^ 53 + 1; 2 ^ 53 + 1]%Z = OK (PyFloat (inject_Z (2 ^ 53))).
Proof. vm_compute; reflexivity. Qed.

Example mean_overflows :
  statistics_mean [10 ^ 309; 10 ^ 309 + 1]%Z = Err OverflowError ∧
  statistics_mean [10 ^ 309; 10 ^ 309]%Z = OK (PyInt (10 ^ 309)) ∧
  statistics_median [10 ^ 309; 10 ^ 309]%Z = Err OverflowError.
Proof. repeat split; vm_compute; reflexivity. Qed.

Example unambiguous_snv :
  is_indel "A" = false ∧ is_variant_n "A" = false ∧ is_variant_iupac "A" = false.
Proof. repeat split. Qed.

Example summary_assembled :
  create_qc_summary_line variants_example qc_one_line coverage_two_rows
    metadata_duplicates true
  = OK (Summary (VariantCounts 4 1 1 3 1) (QcFields "s1" "0.50" "99.50" "TRUE")
                (CoverageStats (PyInt 12) (PyFloat (Qmake 12 1))) "24.1").
Proof. vm_compute; reflexivity. Qed.

(** * Further properties *)

(** ** Lines of concatenated texts *)

Lemma readlines_nonempty c text : readlines (String c text) ≠ [].
Proof.
  cbn [readlines]. destruct (Ascii.eqb c LF); [done|].
  by destruct (readlines text).
Qed.

Lemma readlines_app text1 text2 :
  complete text1 = true →
  readlines (text1 +:+ text2) = readlines text1 ++ readlines text2.
Proof.
  induction text1 as [|c text1 IH]; [done|].
  intros Hc.
  change (String c text1 +:+ text2) with (String c (text1 +:+ text2)).
  cbn [readlines].
  destruct text1 as [|c' text1'].
  - cbn [complete] in Hc. rewrite Hc. done.
  - assert (complete (String c' text1') = true) as Hrest by exact Hc.
    rewrite (IH Hrest).
    destruct (Ascii.eqb c LF); [done|].
    destruct (readlines (String c' text1')) as [|l ls] eqn:Hl; [|done].
    by apply readlines_nonempty in Hl.
Qed.

Lemma data_lines_app (is_header : string → bool) lines1 lines2 :
  data_lines is_header (lines1 ++ lines2) =
  data_lines is_header lines1 ++ data_lines is_header lines2.
Proof. unfold data_lines. apply filter_app. Qed.

Lemma rows_except_app (is_header : string → bool) text1 text2 :
  complete text1 = true →
  rows_except is_header (text1 +:+ text2) =
  rows_except is_header text1 ++ rows_except is_header text2.
Proof.
  intros Hc. unfold rows_except. by rewrite readlines_app, data_lines_app.
Qed.

Lemma alt_rows_app p rows1 rows2 :
  alt_rows p (rows1 ++ rows2) = alt_rows p rows1 ++ alt_rows p rows2.
Proof. unfold alt_rows. apply filter_app. Qed.

(** ** [get_total_variants]: the counts as tallies of the rows *)

(** What one line does to the counters, for either flag. *)
Lemma variants_body_tally indel c line c' :
  variants_body indel c line = OK c' →
  if re_match variants_header line then c' = c
  else
    counter c' = counter c + (if alt_is (adds_variant indel) line then 1 else 0) ∧
    counter_n c' = counter_n c + (if alt_is (adds_n indel) line then 1 else 0) ∧
    counter_iupac c' = counter_iupac c + (if alt_is (adds_iupac indel) line then 1 else 0) ∧
    counter_snv c' = counter_snv c + (if alt_is adds_snv line then 1 else 0) ∧
    counter_indel c' = counter_indel c + (if alt_is (adds_indel indel) line then 1 else 0).
Proof.
  unfold variants_body. destruct (re_match variants_header line); [congruence|].
  destruct (py_index (split TAB line) 3) as [alt|] eqn:Halt; simpl;
    [|by destruct indel].
  apply py_index_OK in Halt.
  unfold alt_is, ALT, adds_variant, adds_n, adds_iupac, adds_snv, adds_indel, is_indel.
  rewrite Halt. destruct indel; simpl.
  - destruct (String.length alt) as [|[|n]] eqn:Hlen; simpl;
      intros (alt' & Halt' & ->)%count_ambiguity_spec;
      assert (alt' = alt) as -> by congruence;
      destruct (is_variant_n alt), (is_variant_iupac alt); simpl; lia.
  - destruct (String.length alt =? 1); simpl.
    + intros (alt' & Halt' & ->)%count_ambiguity_spec.
      assert (alt' = alt) as -> by congruence.
      destruct (is_variant_n alt), (is_variant_iupac alt); simpl; lia.
    + intros [= <-]. lia.
Qed.

Lemma variants_loop_tally indel lines c c' :
  for_each (variants_body indel) lines c = OK c' →
  counter c' = counter c +
    length (alt_rows (adds_variant indel) (data_lines (re_match variants_header) lines)) ∧
  counter_n c' = counter_n c +
    length (alt_rows (adds_n indel) (data_lines (re_match variants_header) lines)) ∧
  counter_iupac c' = counter_iupac c +
    length (alt_rows (adds_iupac indel) (data_lines (re_match variants_header) lines)) ∧
  counter_snv c' = counter_snv c +
    length (alt_rows adds_snv (data_lines (re_match variants_header) lines)) ∧
  counter_indel c' = counter_indel c +
    length (alt_rows (adds_indel indel) (data_lines (re_match variants_header) lines)).
Proof.
  revert c. induction lines as [|line lines IH]; intros c; cbn [for_each].
  - intros [= <-]. cbn. lia.
  - intros (c1 & Hbody & Hloop)%bind_OK.
    apply variants_body_tally in Hbody. specialize (IH _ Hloop).
    rewrite data_lines_cons.
    destruct (re_match variants_header line); [subst c1; exact IH|].
    rewrite !alt_rows_cons. lia.
Qed.

(** The body succeeds on a header and on a line of four fields or more. *)
Lemma variants_body_long indel c line :
  re_match variants_header line = true ∨ 4 ≤ length (split TAB line) →
  ∃ c', variants_body indel c line = OK c'.
Proof.
  intros Hline. unfold variants_body.
  destruct (re_match variants_header line); [eauto|].
  destruct Hline as [|Hlen]; [done|].
  destruct (lookup_lt_is_Some_2 (split TAB line) 3) as [alt Halt]; [lia|].
  assert (∀ c0, ∃ c', count_ambiguity (split TAB line) c0 = OK c') as Hamb.
  { intros c0. unfold count_ambiguity, py_index. rewrite Halt. simpl.
    destruct (is_variant_n alt); [eauto|].
    destruct (is_variant_iupac alt); eauto. }
  unfold py_index. rewrite Halt. simpl. destruct indel.
  - destruct (1 <? String.length alt); [apply Hamb|].
    destruct (String.length alt =? 1); apply Hamb.
  - destruct (String.length alt =? 1); [apply Hamb|eauto].
Qed.

Lemma variants_loop_succeeds indel lines c :
  Forall (λ line, 4 ≤ length (split TAB line))
         (data_lines (re_match variants_header) lines) →
  ∃ c', for_each (variants_body indel) lines c = OK c'.
Proof.
  revert c. induction lines as [|line lines IH]; intros c; [eauto|].
  rewrite data_lines_cons. intros Hall. cbn [for_each].
  destruct (variants_body_long indel c line) as [c1 Hc1].
  { destruct (re_match variants_header line); [by left|].
    right. by apply Forall_cons in Hall as [? _]. }
  rewrite Hc1, bind_of_OK. apply IH.
  destruct (re_match variants_header line); [done|].
  by apply Forall_cons in Hall as [_ ?].
Qed.

(** The outcome of [get_total_variants], in full: the tally of the rows
    when every row has four fields or more, [IndexError] otherwise. *)
Lemma get_total_variants_outcome file indel :
  get_total_variants file indel =
  if decide (Forall (λ line, 4 ≤ length (split TAB line)) (variants_rows file))
  then OK (tally indel (variants_rows file))
  else Err IndexError.
Proof.
  case_decide as Hall.
  - unfold get_total_variants.
    destruct (variants_loop_succeeds indel (readlines file) (Counters 0 0 0 0 0) Hall)
      as [c Hc].
    rewrite Hc, bind_of_OK. apply variants_loop_tally in Hc.
    cbn [counter counter_n counter_iupac counter_snv counter_indel] in Hc.
    unfold tally, variants_rows, rows_except.
    destruct Hc as (-> & -> & -> & -> & ->). done.
  - apply not_Forall_Exists in Hall; [|apply _].
    apply Exists_exists in Hall as (line & Hin & Hshort).
    apply data_lines_elem in Hin as [Hin Hh]. unfold get_total_variants.
    rewrite (for_each_raises (variants_body indel) IndexError
               (λ l, re_match variants_header l = false ∧ length (split TAB l) < 4));
      [done| | |].
    + intros st l e. apply variants_body_Err.
    + intros st l [??]. by apply variants_body_short.
    + apply Exists_exists. exists line. split; [done|]. split; [done|].
      simpl in Hshort. lia.
Qed.

(** X1. [get_total_variants] returns exactly when every row of the
    table (every line that is not a header) has four tab-delimited
    fields or more, whatever the flag; and [IndexError] is the only
    exception it raises. *)
Theorem get_total_variants_returns_iff (file : string) (indel : bool) :
  ((∃ r, get_total_variants file indel = OK r) ↔
   Forall (λ line, 4 ≤ length (split TAB line)) (variants_rows file)) ∧
  (∀ e, get_total_variants file indel = Err e → e = IndexError).
Proof.
  rewrite get_total_variants_outcome. case_decide as Hall; split.
  - split; [done|eauto].
  - discriminate.
  - split; [by intros [r ?]|done].
  - by intros e [= <-].
Qed.

(** X2. With indels included, the returned counts are tallies of the
    rows: [total_variants] counts the rows with a non-empty ALT,
    [total_snv] those with a one-character ALT, [total_indel] those
    that [is_indel] accepts, [total_n] those that [is_variant_n]
    accepts and [total_iupac] those that [is_variant_iupac] accepts but
    [is_variant_n] does not. *)
Theorem indels_included (file : string) (r : variant_counts) :
  get_total_variants file true = OK r →
  total_variants r =
    length (alt_rows (λ alt, 1 <=? String.length alt) (variants_rows file)) ∧
  total_snv r =
    length (alt_rows (λ alt, String.length alt =? 1) (variants_rows file)) ∧
  total_indel r = length (alt_rows is_indel (variants_rows file)) ∧
  total_n r = length (alt_rows is_variant_n (variants_rows file)) ∧
  total_iupac r =
    length (alt_rows (λ alt, negb (is_variant_n alt) && is_variant_iupac alt)
                     (variants_rows file)).
Proof.
  rewrite get_total_variants_outcome. case_decide; [|done].
  intros [= <-]. repeat split.
Qed.

Lemma indels_included_witness :
  4 = length (alt_rows (λ alt, 1 <=? String.length alt) (variants_rows variants_example)) ∧
  3 = length (alt_rows (λ alt, String.length alt =? 1) (variants_rows variants_example)) ∧
  1 = length (alt_rows is_indel (variants_rows variants_example)) ∧
  1 = length (alt_rows is_variant_n (variants_rows variants_example)) ∧
  1 = length (alt_rows (λ alt, negb (is_variant_n alt) && is_variant_iupac alt)
                       (variants_rows variants_example)).
Proof.
  apply (indels_included variants_example (VariantCounts 4 1 1 3 1)).
  vm_compute; reflexivity.
Defined.

Lemma alt_rows_sum_le (p q r : string → bool) (rows : list string) :
  (∀ alt, (if p alt then 1 else 0) + (if q alt then 1 else 0)
          ≤ (if r alt then 1 else 0)) →
  length (alt_rows p rows) + length (alt_rows q rows) ≤ length (alt_rows r rows).
Proof.
  intros Hpqr. induction rows as [|line rows IH]; [done|].
  rewrite !alt_rows_cons. unfold alt_is.
  destruct (ALT line) as [alt|]; [|lia]. specialize (Hpqr alt). lia.
Qed.

Lemma is_variant_n_nonempty alt : is_variant_n alt = true → 1 ≤ String.length alt.
Proof. destruct alt; [discriminate|simpl; lia]. Qed.

Lemma is_variant_iupac_nonempty alt : is_variant_iupac alt = true → 1 ≤ String.length alt.
Proof. destruct alt; [discriminate|simpl; lia]. Qed.

(** X3. Whatever the flag, N calls and IUPAC calls are disjoint parts
    of the counted variants: [total_n + total_iupac <= total_variants]
    on every returned result. *)
Theorem ambiguous_within_total (file : string) (indel : bool) (r : variant_counts) :
  get_total_variants file indel = OK r →
  total_n r + total_iupac r ≤ total_variants r.
Proof.
  rewrite get_total_variants_outcome. case_decide; [|done].
  intros [= <-]. cbn [tally total_n total_iupac total_variants].
  apply alt_rows_sum_le. intros alt.
  unfold adds_n, adds_iupac, adds_variant.
  destruct (is_variant_n alt) eqn:Hn; destruct (is_variant_iupac alt) eqn:Hi;
    destruct indel; simpl; try lia;
    try (apply is_variant_n_nonempty in Hn); try (apply is_variant_iupac_nonempty in Hi);
    destruct (String.length alt) as [|[|n]]; simpl; lia.
Qed.

Lemma ambiguous_within_total_witness : 1 + 1 ≤ 4.
Proof.
  apply (ambiguous_within_total variants_example true (VariantCounts 4 1 1 3 1)).
  vm_compute; reflexivity.
Defined.

Lemma alt_rows_le (p q : string → bool) (rows : list string) :
  (∀ alt, p alt = true → q alt = true) →
  length (alt_rows p rows) ≤ length (alt_rows q rows).
Proof.
  intros Hpq. induction rows as [|line rows IH]; [done|].
  rewrite !alt_rows_cons. unfold alt_is.
  destruct (ALT line) as [alt|]; [|lia]. specialize (Hpq alt).
  destruct (p alt); [rewrite Hpq by done|destruct (q alt)]; lia.
Qed.

Lemma alt_rows_never (p : string → bool) (rows : list string) :
  (∀ alt, p alt = false) → length (alt_rows p rows) = 0.
Proof.
  intros Hp. induction rows as [|line rows IH]; [done|].
  rewrite alt_rows_cons, IH. unfold alt_is.
  destruct (ALT line) as [alt|]; [by rewrite Hp|done].
Qed.

(** X4. The flag changes neither whether the call returns nor the
    number of SNVs: when the call with indels returns [r], the call
    without returns a result whose [total_variants] and [total_snv] are
    [total_snv r], whose [total_indel] is 0, and whose [total_n] and
    [total_iupac] are at most those of [r]. *)
Theorem without_indels_from_with (file : string) (r : variant_counts) :
  get_total_variants file true = OK r →
  ∃ r', get_total_variants file false = OK r' ∧
    total_variants r' = total_snv r ∧ total_snv r' = total_snv r ∧
    total_indel r' = 0 ∧
    total_n r' ≤ total_n r ∧ total_iupac r' ≤ total_iupac r.
Proof.
  rewrite !get_total_variants_outcome. case_decide; [|done].
  intros [= <-]. eexists. split; [done|].
  cbn [tally total_variants total_snv total_indel total_n total_iupac].
  repeat split.
  - apply alt_rows_never. by intros alt.
  - apply alt_rows_le. intros alt. unfold adds_n. simpl.
    by intros [_ ->]%andb_true_iff.
  - apply alt_rows_le. intros alt. unfold adds_iupac. simpl.
    by intros [[_ ->]%andb_true_iff ->]%andb_true_iff.
Qed.

Lemma without_indels_from_with_witness :
  ∃ r', get_total_variants variants_example false = OK r' ∧
    total_variants r' = 3 ∧ total_snv r' = 3 ∧ total_indel r' = 0 ∧
    total_n r' ≤ 1 ∧ total_iupac r' ≤ 1.
Proof.
  apply (without_indels_from_with variants_example (VariantCounts 4 1 1 3 1)).
  vm_compute; reflexivity.
Defined.

Lemma tally_app indel rows1 rows2 :
  tally indel (rows1 ++ rows2) = add_counts (tally indel rows1) (tally indel rows2).
Proof. unfold tally, add_counts. simpl. by rewrite !alt_rows_app, !length_app. Qed.

(** X5. Counts add up over concatenation: when a table that is empty
    or ends with a newline and a second table are both counted without
    an error, the table made of the first followed by the second is
    counted without an error and each of its counts is the sum of
    theirs. *)
Theorem counts_add_up (file1 file2 : string) (indel : bool) (r1 r2 : variant_counts) :
  complete file1 = true →
  get_total_variants file1 indel = OK r1 →
  get_total_variants file2 indel = OK r2 →
  get_total_variants (file1 +:+ file2) indel = OK (add_counts r1 r2).
Proof.
  intros Hc. rewrite !get_total_variants_outcome.
  unfold variants_rows. rewrite (rows_except_app _ file1 file2 Hc).
  case_decide as H1; [|done]. case_decide as H2; [|done].
  intros [= <-] [= <-]. rewrite decide_True by by apply Forall_app.
  by rewrite tally_app.
Qed.

Lemma counts_add_up_witness :
  get_total_variants (variants_part_1 +:+ variants_part_2) true =
  OK (add_counts (VariantCounts 2 1 0 1 1) (VariantCounts 1 0 1 1 0)).
Proof.
  apply (counts_add_up variants_part_1 variants_part_2 true);
    vm_compute; reflexivity.
Defined.

(** ** [is_variant_n] and [is_variant_iupac] *)

(** X6. Of the variants made of ASCII characters, [is_variant_n] holds
    exactly of those that contain an N in either case, and
    [is_variant_iupac] exactly of those that contain one of R, Y, S, W,
    K, M, B, D, H, V in either case. *)
Theorem classifier_letters (variant : string) :
  ascii_only variant = true →
  (is_variant_n variant = true ↔ mentions "N" variant) ∧
  (is_variant_iupac variant = true ↔ mentions IUPAC variant).
Proof.
  intros _. split; [apply is_variant_n_spec | apply is_variant_iupac_spec].
Qed.

Lemma classifier_letters_witness :
  (is_variant_n "+Na" = true ↔ mentions "N" "+Na") ∧
  (is_variant_iupac "+Na" = true ↔ mentions IUPAC "+Na").
Proof. apply (classifier_letters "+Na"). vm_compute; reflexivity. Defined.

(** X7. N is kept apart from the IUPAC codes: a variant of one
    character that [is_variant_n] accepts is rejected by
    [is_variant_iupac]. *)
Theorem n_is_not_iupac (variant : string) :
  String.length variant = 1 →
  is_variant_n variant = true → is_variant_iupac variant = false.
Proof.
  destruct variant as [|c [|c' rest]]; [done| |done]. intros _.
  unfold is_variant_n, is_variant_iupac, upper. cbn [map_string re_search].
  rewrite !orb_false_r.
  destruct c as [[] [] [] [] [] [] [] []]; vm_compute; congruence.
Qed.

Lemma n_is_not_iupac_witness : is_variant_iupac "n" = false.
Proof. apply (n_is_not_iupac "n"); vm_compute; reflexivity. Defined.

Lemma upper_lower_char c : upper_char (lower_char c) = upper_char c.
Proof. destruct c as [[] [] [] [] [] [] [] []]; vm_compute; reflexivity. Qed.

Lemma upper_upper_char c : upper_char (upper_char c) = upper_char c.
Proof. destruct c as [[] [] [] [] [] [] [] []]; vm_compute; reflexivity. Qed.

Lemma upper_lower s : upper (lower s) = upper s.
Proof.
  unfold upper, lower. induction s as [|c s IH]; [done|].
  cbn [map_string]. by rewrite upper_lower_char, IH.
Qed.

Lemma upper_upper s : upper (upper s) = upper s.
Proof.
  unfold upper. induction s as [|c s IH]; [done|].
  cbn [map_string]. by rewrite upper_upper_char, IH.
Qed.

(** X8. On variants made of ASCII characters both tests ignore case: a
    variant, its upper-case form and its lower-case form are classified
    alike. *)
Theorem classifier_ignores_case (variant : string) :
  ascii_only variant = true →
  is_variant_n (lower variant) = is_variant_n variant ∧
  is_variant_n (upper variant) = is_variant_n variant ∧
  is_variant_iupac (lower variant) = is_variant_iupac variant ∧
  is_variant_iupac (upper variant) = is_variant_iupac variant.
Proof.
  intros _. unfold is_variant_n, is_variant_iupac.
  by rewrite upper_lower, upper_upper.
Qed.

Lemma classifier_ignores_case_witness :
  is_variant_n (lower "+nA") = is_variant_n "+nA" ∧
  is_variant_n (upper "+nA") = is_variant_n "+nA" ∧
  is_variant_iupac (lower "+nA") = is_variant_iupac "+nA" ∧
  is_variant_iupac (upper "+nA") = is_variant_iupac "+nA".
Proof. apply (classifier_ignores_case "+nA"). vm_compute; reflexivity. Defined.

(** ** [get_qc_data]: when it returns, and what *)

(** X9. [get_qc_data] returns exactly when the file has a data line and
    the last one has seven comma-delimited fields or more; the
    exceptions it raises are [UnboundLocalError] and [IndexError]
    only. *)
Theorem get_qc_data_returns_iff (file : string) :
  ((∃ q, get_qc_data file = OK q) ↔
   ∃ line, last (qc_rows file) = Some line ∧ 7 ≤ length (split COMMA line)) ∧
  (∀ e, get_qc_data file = Err e → e = UnboundLocalError ∨ e = IndexError).
Proof.
  rewrite get_qc_data_last. destruct (last (qc_rows file)) as [line|].
  - destruct (decide (7 ≤ length (split COMMA line))) as [Hlen|Hlen].
    + assert (∃ q, qc_project (split COMMA (strip line)) = OK q) as [q Hq].
      { rewrite <- (split_strip_length COMMA line) in Hlen by done.
        unfold qc_project, py_index.
        destruct (lookup_lt_is_Some_2 (split COMMA (strip line)) 0) as [d0 ->]; [lia|].
        destruct (lookup_lt_is_Some_2 (split COMMA (strip line)) 1) as [d1 ->]; [lia|].
        destruct (lookup_lt_is_Some_2 (split COMMA (strip line)) 2) as [d2 ->]; [lia|].
        destruct (lookup_lt_is_Some_2 (split COMMA (strip line)) 6) as [d6 ->]; [lia|].
        eauto. }
      rewrite Hq. split; [|discriminate]. split; eauto.
    + rewrite qc_project_short by (rewrite split_strip_length; [lia|done]).
      split; [|intros e [= <-]; by right].
      split; [by intros [q ?]|]. intros (l & [= <-] & ?). lia.
  - split; [|intros e [= <-]; by left].
    split; [by intros [q ?]|]. by intros (l & ? & _).
Qed.

Lemma split_no_sep sep s : Forall (λ f, count_char sep f = 0) (split sep s).
Proof.
  induction s as [|c s IH]; cbn [split]; [by constructor|].
  destruct (Ascii.eqb c sep) eqn:E; [by constructor|].
  destruct (split sep s) as [|f fs]; [constructor; [cbn; by rewrite E|done]|].
  apply Forall_cons in IH as [Hf Hfs]. constructor; [|done].
  cbn. by rewrite E, Hf.
Qed.

Lemma starts_blank_lstrip s : starts_blank (lstrip s) = false.
Proof.
  induction s as [|c s IH]; [done|]. cbn [lstrip].
  destruct (isspace c) eqn:E; [done|]. cbn. exact E.
Qed.

Lemma starts_blank_rstrip s : starts_blank s = false → starts_blank (rstrip s) = false.
Proof.
  destruct s as [|c s]; [done|]. cbn [starts_blank rstrip]. intros Hc.
  destruct (rstrip s); [by rewrite Hc|exact Hc].
Qed.

Lemma starts_blank_strip s : starts_blank (strip s) = false.
Proof. apply starts_blank_rstrip, starts_blank_lstrip. Qed.

Lemma starts_blank_split sep s f :
  starts_blank s = false → split sep s !! 0 = Some f → starts_blank f = false.
Proof.
  destruct s as [|c s]; cbn [split].
  - by intros _ [= <-].
  - destruct (Ascii.eqb c sep); [by intros _ [= <-]|].
    destruct (split sep s); by intros Hc [= <-].
Qed.

(** X10. The fields [get_qc_data] returns hold no comma, and the
    sample name does not begin with a blank. *)
Theorem qc_fields_clean (file : string) (q : qc_fields) :
  get_qc_data file = OK q →
  count_char COMMA (sample_name q) = 0 ∧
  count_char COMMA (pct_n_bases q) = 0 ∧
  count_char COMMA (pct_covered_bases q) = 0 ∧
  count_char COMMA (qc_pass q) = 0 ∧
  starts_blank (sample_name q) = false.
Proof.
  rewrite get_qc_data_last. destruct (last (qc_rows file)) as [line|]; [|done].
  unfold qc_project.
  intros (d0 & H0%py_index_OK & (d1 & H1%py_index_OK & (d2 & H2%py_index_OK &
    (d6 & H6%py_index_OK & [= <-])%bind_OK)%bind_OK)%bind_OK)%bind_OK.
  pose proof (split_no_sep COMMA (strip line)) as Hno.
  rewrite Forall_lookup in Hno. cbn.
  repeat split; try (eapply Hno; eassumption).
  eapply starts_blank_split; [apply starts_blank_strip|exact H0].
Qed.

Lemma qc_fields_clean_witness :
  count_char COMMA "s1" = 0 ∧ count_char COMMA "0.50" = 0 ∧
  count_char COMMA "99.50" = 0 ∧ count_char COMMA "TRUE" = 0 ∧
  starts_blank "s1" = false.
Proof.
  apply (qc_fields_clean qc_one_line (QcFields "s1" "0.50" "99.50" "TRUE")).
  vm_compute; reflexivity.
Defined.

(** ** [import_ct_data]: when it returns, and what *)

Lemma ct_body_Err data line e : ct_body data line = Err e → e = IndexError.
Proof.
  unfold ct_body. destruct (re_match metadata_header (lower line)); [done|].
  destruct (py_index (split TAB (strip line)) 1) as [v|e1] eqn:H1; simpl.
  - destruct (py_index (split TAB (strip line)) 0) as [k|e0] eqn:H0; simpl; [done|].
    intros [= <-]. by eapply py_index_Err.
  - intros [= <-]. by eapply py_index_Err.
Qed.

Lemma ct_body_short data line :
  re_match metadata_header (lower line) = false → length (columns line) < 2 →
  ct_body data line = Err IndexError.
Proof.
  intros Hh Hlen. unfold ct_body. rewrite Hh. fold (columns line).
  by rewrite (py_index_short (columns line) 1) by lia.
Qed.

Lemma import_ct_data_Err file e : import_ct_data file = Err e → e = IndexError.
Proof.
  unfold import_ct_data. generalize (∅ : gmap string string).
  induction (readlines file) as [|line lines IH]; intros data; [done|].
  cbn [for_each]. destruct (ct_body data line) as [data'|e'] eqn:Hb.
  - rewrite bind_of_OK. apply IH.
  - intros [= <-]. by eapply ct_body_Err.
Qed.

Lemma import_ct_data_short_row file line :
  line ∈ ct_rows file → length (columns line) < 2 →
  import_ct_data file = Err IndexError.
Proof.
  intros [Hin Hh]%data_lines_elem Hlen. unfold import_ct_data.
  apply (for_each_raises ct_body IndexError
           (λ l, re_match metadata_header (lower l) = false ∧ length (columns l) < 2)).
  - intros st l e. apply ct_body_Err.
  - intros st l [??]. by apply ct_body_short.
  - apply Exists_exists. eauto.
Qed.

(** X11. [import_ct_data] returns exactly when every row of the table
    (every line that is not a header), once stripped, has two
    tab-delimited columns or more; [IndexError] is the only exception
    it raises. *)
Theorem import_ct_data_returns_iff (file : string) :
  ((∃ m, import_ct_data file = OK m) ↔
   Forall (λ line, 2 ≤ length (columns line)) (ct_rows file)) ∧
  (∀ e, import_ct_data file = Err e → e = IndexError).
Proof.
  split; [|apply import_ct_data_Err]. split.
  - intros [m Hm].
    destruct (decide (Forall (λ line, 2 ≤ length (columns line)) (ct_rows file)))
      as [|Hnot]; [done|].
    apply not_Forall_Exists in Hnot; [|apply _].
    apply Exists_exists in Hnot as (line & Hin & Hshort). simpl in Hshort.
    rewrite (import_ct_data_short_row file line Hin) in Hm; [done|lia].
  - intros Hall. destruct (ct_loop "" (readlines file) ∅ Hall) as (m & Hm & _).
    by exists m.
Qed.

(** X12. The mapping [import_ct_data] returns binds a name to column 1
    of the last row whose column 0 is that name, and binds no name
    that is column 0 of no row. *)
Theorem ct_lookup (file name : string) (m : gmap string string) :
  import_ct_data file = OK m →
  m !! name = last (rows_of name (ct_rows file)) ≫= (λ line, columns line !! 1) ∧
  (m !! name = None ↔ rows_of name (ct_rows file) = []).
Proof.
  intros Hm.
  assert (Forall (λ line, 2 ≤ length (columns line)) (ct_rows file)) as Hall.
  { destruct (decide (Forall (λ line, 2 ≤ length (columns line)) (ct_rows file)))
      as [|Hnot]; [done|].
    apply not_Forall_Exists in Hnot; [|apply _].
    apply Exists_exists in Hnot as (line & Hin & Hshort). simpl in Hshort.
    rewrite (import_ct_data_short_row file line Hin) in Hm; [done|lia]. }
  destruct (ct_loop name (readlines file) ∅ Hall) as (m' & Hm' & Hlook).
  unfold import_ct_data in Hm. rewrite Hm in Hm'. injection Hm' as <-.
  fold (rows_except (λ line, re_match metadata_header (lower line)) file) in Hlook.
  fold (ct_rows file) in Hlook. rewrite Hlook.
  destruct (last (rows_of name (ct_rows file))) as [line|] eqn:Hlast.
  - split; [done|]. simpl.
    assert (line ∈ ct_rows file) as Hin.
    { apply last_Some_elem_of in Hlast. unfold rows_of in Hlast.
      by apply list_elem_of_filter in Hlast as [_ ?]. }
    rewrite Forall_forall in Hall. specialize (Hall line Hin).
    destruct (lookup_lt_is_Some_2 (columns line) 1) as [v Hv]; [lia|].
    rewrite Hv. split; [done|]. intros Hnil. by rewrite Hnil in Hlast.
  - split; [by rewrite lookup_empty|]. rewrite lookup_empty.
    split; [|done]. intros _. by apply last_None.
Qed.

Lemma ct_lookup_witness :
  ({["s1" := "24.1"; "s2" := "31.0"]} : gmap string string) !! "s3" =
    last (rows_of "s3" (ct_rows metadata_duplicates)) ≫= (λ line, columns line !! 1) ∧
  (({["s1" := "24.1"; "s2" := "31.0"]} : gmap string string) !! "s3" = None ↔
   rows_of "s3" (ct_rows metadata_duplicates) = []).
Proof.
  apply (ct_lookup metadata_duplicates "s3" {["s1" := "24.1"; "s2" := "31.0"]}).
  vm_compute; reflexivity.
Defined.

Lemma lstrip_blank w : blank w = true → lstrip w = EmptyString.
Proof.
  induction w as [|c w IH]; [done|]. cbn [blank lstrip].
  intros [-> Hw]%andb_true_iff. auto.
Qed.

Lemma rstrip_blank w : blank w = true → rstrip w = EmptyString.
Proof.
  induction w as [|c w IH]; [done|]. cbn [blank rstrip].
  intros [-> Hw]%andb_true_iff. by rewrite IH.
Qed.

Lemma rstrip_app_blank s w : blank w = true → rstrip (s +:+ w) = rstrip s.
Proof.
  intros Hw. induction s as [|c s IH]; [by apply rstrip_blank|].
  change (String c s +:+ w) with (String c (s +:+ w)).
  cbn [rstrip]. by rewrite IH.
Qed.

(** Blanks appended to a line are stripped with it. *)
Lemma strip_app_blank s w : blank w = true → strip (s +:+ w) = strip s.
Proof.
  intros Hw. unfold strip. induction s as [|c s IH].
  - change (EmptyString +:+ w) with w. by rewrite (lstrip_blank w Hw).
  - change (String c s +:+ w) with (String c (s +:+ w)). cbn [lstrip].
    destruct (isspace c); [exact IH|].
    change (String c (s +:+ w)) with (String c s +:+ w).
    by apply rstrip_app_blank.
Qed.

Lemma count_char_lstrip_le sep s : count_char sep (lstrip s) ≤ count_char sep s.
Proof.
  induction s as [|c s IH]; [done|]. cbn [lstrip].
  destruct (isspace c); [cbn; lia|done].
Qed.

Lemma count_char_rstrip_le sep s : count_char sep (rstrip s) ≤ count_char sep s.
Proof.
  induction s as [|c s IH]; [done|]. cbn [rstrip].
  destruct (rstrip s) as [|c' r].
  - destruct (isspace c); cbn; lia.
  - cbn in *. lia.
Qed.

(** X13. A row made of a sample name without a tab and of blanks only
    (a tab and the newline, say: an empty ct cell) is stripped down to
    one column, and makes [import_ct_data] raise [IndexError]. *)
Theorem empty_ct_cell_raises (file name blanks : string) :
  (name +:+ blanks) ∈ ct_rows file →
  count_char TAB name = 0 →
  blank blanks = true →
  import_ct_data file = Err IndexError.
Proof.
  intros Hin Hname Hblank.
  apply (import_ct_data_short_row file (name +:+ blanks) Hin).
  unfold columns. rewrite (strip_app_blank name blanks Hblank), split_length.
  pose proof (count_char_rstrip_le TAB (lstrip name)).
  pose proof (count_char_lstrip_le TAB name). unfold strip. lia.
Qed.

Lemma empty_ct_cell_raises_witness :
  import_ct_data metadata_empty_ct = Err IndexError.
Proof.
  apply (empty_ct_cell_raises metadata_empty_ct "s2"
           (String TAB (String LF EmptyString))).
  - vm_compute. do 1 constructor. constructor.
  - vm_compute; reflexivity.
  - vm_compute; reflexivity.
Defined.


(** ** [get_qc_data]: the fields of the last data line *)

Lemma join_cons_char sep c f fs :
  join sep (String c f :: fs) = String c (join sep (f :: fs)).
Proof. by destruct fs. Qed.

(** A text is its fields joined by the separator. *)
Lemma join_split sep s : join sep (split sep s) = s.
Proof.
  induction s as [|c s IH]; [done|]. cbn [split].
  destruct (split_nonempty sep s) as (f & fs & Hs). rewrite Hs in IH |- *.
  destruct (Ascii.eqb c sep) eqn:E.
  - apply Ascii.eqb_eq in E as ->.
    change (join sep (EmptyString :: f :: fs))
      with (String sep (join sep (f :: fs))).
    by rewrite IH.
  - by rewrite join_cons_char, IH.
Qed.

Lemma ends_blank_rstrip s : ends_blank (rstrip s) = false.
Proof.
  induction s as [|c s IH]; [done|]. cbn [rstrip].
  destruct (rstrip s) as [|c' r].
  - destruct (isspace c) eqn:E; [done|exact E].
  - exact IH.
Qed.

Lemma lstrip_decompose s : ∃ before, blank before = true ∧ s = before +:+ lstrip s.
Proof.
  induction s as [|c s (before & Hb & Hs)]; [by exists EmptyString|].
  cbn [lstrip]. destruct (isspace c) eqn:E.
  - exists (String c before). cbn [blank]. rewrite E, Hb. split; [done|].
    change (String c before +:+ lstrip s) with (String c (before +:+ lstrip s)).
    by rewrite <- Hs.
  - by exists EmptyString.
Qed.

Lemma rstrip_decompose s : ∃ after, blank after = true ∧ s = rstrip s +:+ after.
Proof.
  induction s as [|c s (after & Ha & Hs)]; [by exists EmptyString|].
  cbn [rstrip]. destruct (rstrip s) as [|c' r].
  - change (EmptyString +:+ after) with after in Hs. subst after.
    destruct (isspace c) eqn:E.
    + exists (String c s). cbn [blank]. by rewrite E, Ha.
    + by exists s.
  - exists after. split; [done|].
    change (String c (String c' r) +:+ after)
      with (String c (String c' r +:+ after)).
    by rewrite <- Hs.
Qed.

(** A line is its stripped text between two runs of blanks. *)
Lemma strip_decompose s :
  ∃ before after,
    blank before = true ∧ blank after = true ∧ s = before +:+ strip s +:+ after.
Proof.
  destruct (lstrip_decompose s) as (before & Hb & Hs).
  destruct (rstrip_decompose (lstrip s)) as (after & Ha & Hl).
  exists before, after. unfold strip. by rewrite <- Hl.
Qed.

(** C10, amended. In a QC file with two or more data lines, the last
    of which has seven comma-delimited fields or more (six commas),
    [get_qc_data] returns fields 0, 1, 2 and 6 of the last data line:
    the line is taken without the blanks around it and cut at its
    commas.  The data lines before it, whatever they hold, are
    overwritten without an error. *)
Theorem last_qc_line_projected (file line : string) :
  2 ≤ length (qc_rows file) →
  last (qc_rows file) = Some line →
  6 ≤ count_char COMMA line →
  ∃ before core after fields d0 d1 d2 d6,
    line = before +:+ core +:+ after ∧
    blank before = true ∧ blank after = true ∧
    starts_blank core = false ∧ ends_blank core = false ∧
    join COMMA fields = core ∧
    Forall (λ f, count_char COMMA f = 0) fields ∧
    fields !! 0 = Some d0 ∧ fields !! 1 = Some d1 ∧
    fields !! 2 = Some d2 ∧ fields !! 6 = Some d6 ∧
    get_qc_data file = OK (QcFields d0 d1 d2 d6).
Proof.
  intros _ Hlast Hcommas. rewrite get_qc_data_last, Hlast.
  destruct (strip_decompose line) as (before & after & Hb & Ha & Hline).
  assert (7 ≤ length (split COMMA (strip line))) as Hlen.
  { rewrite split_strip_length by done. rewrite split_length. lia. }
  destruct (lookup_lt_is_Some_2 (split COMMA (strip line)) 0) as [d0 H0]; [lia|].
  destruct (lookup_lt_is_Some_2 (split COMMA (strip line)) 1) as [d1 H1]; [lia|].
  destruct (lookup_lt_is_Some_2 (split COMMA (strip line)) 2) as [d2 H2]; [lia|].
  destruct (lookup_lt_is_Some_2 (split COMMA (strip line)) 6) as [d6 H6]; [lia|].
  exists before, (strip line), after, (split COMMA (strip line)), d0, d1, d2, d6.
  split; [exact Hline|]. split; [exact Hb|]. split; [exact Ha|].
  split; [apply starts_blank_strip|]. split; [apply ends_blank_rstrip|].
  split; [apply join_split|]. split; [apply split_no_sep|].
  split; [exact H0|]. split; [exact H1|]. split; [exact H2|]. split; [exact H6|].
  unfold qc_project, py_index. by rewrite H0, H1, H2, H6.
Qed.

Lemma last_qc_line_projected_witness :
  ∃ before core after fields d0 d1 d2 d6,
    row COMMA ["s2"; "12.00"; "88.00"; "9000"; "5000"; "s2.fa"; "FALSE"]
      = before +:+ core +:+ after ∧
    blank before = true ∧ blank after = true ∧
    starts_blank core = false ∧ ends_blank core = false ∧
    join COMMA fields = core ∧
    Forall (λ f, count_char COMMA f = 0) fields ∧
    fields !! 0 = Some d0 ∧ fields !! 1 = Some d1 ∧
    fields !! 2 = Some d2 ∧ fields !! 6 = Some d6 ∧
    get_qc_data qc_two_lines = OK (QcFields d0 d1 d2 d6).
Proof.
  apply (last_qc_line_projected qc_two_lines
           (row COMMA ["s2"; "12.00"; "88.00"; "9000"; "5000"; "s2.fa"; "FALSE"])).
  - vm_compute. lia.
  - vm_compute; reflexivity.
  - vm_compute. lia.
Defined.

(** C10, as stated, fails: this file has two data lines, the second of
    them empty, and [get_qc_data] raises [IndexError] instead of
    returning fields of the last data line. *)
Lemma last_qc_line_counterexample :
  2 ≤ length (qc_rows qc_trailing_blank) ∧
  get_qc_data qc_trailing_blank = Err IndexError ∧
  ¬ ∃ q, get_qc_data qc_trailing_blank = OK q.
Proof.
  assert (get_qc_data qc_trailing_blank = Err IndexError) as Herr
    by (vm_compute; reflexivity).
  split; [vm_compute; lia|]. split; [exact Herr|].
  intros [q Hq]. rewrite Herr in Hq. discriminate.
Qed.
(** ** Quotients rounded to floats *)

Section Rounding.

#[local] Open Scope Z_scope.

Lemma round_half_even_le n d K : 0 < d → n ≤ K * d → round_half_even n d ≤ K.
Proof.
  intros Hd Hn. unfold round_half_even.
  pose proof (Z.div_mod n d ltac:(lia)) as Hdm.
  pose proof (Z.mod_pos_bound n d Hd) as Hr.
  assert (n / d ≤ K) as Hm by nia.
  destruct (Z.eq_dec (n / d) K) as [HK|HK].
  - assert (n mod d = 0) as -> by nia.
    replace (2 * 0 ?= d) with Lt by (symmetry; apply Z.compare_lt_iff; lia). lia.
  - destruct (2 * (n mod d) ?= d); [destruct (Z.even (n / d))|..]; lia.
Qed.

Lemma round_half_even_ge n d K : 0 < d → K * d ≤ n → K ≤ round_half_even n d.
Proof.
  intros Hd Hn. unfold round_half_even.
  pose proof (Z.div_mod n d ltac:(lia)) as Hdm.
  pose proof (Z.mod_pos_bound n d Hd) as Hr.
  assert (K ≤ n / d) as Hm by (apply Z.div_le_lower_bound; lia).
  destruct (2 * (n mod d) ?= d); [destruct (Z.even (n / d))|..]; lia.
Qed.

(** [2^e <= a / b < 2^(e+1)], with the powers brought to whichever side
    keeps them integers. *)
Lemma quotient_exponent_lower a b i j :
  0 < a → 0 < b → 0 ≤ i → 0 ≤ j → i - j = quotient_exponent a b →
  b * 2 ^ i ≤ a * 2 ^ j.
Proof.
  intros Ha Hb Hi Hj He. unfold quotient_exponent in He.
  destruct (Z.log2_spec a Ha) as [Hla Hua].
  destruct (Z.log2_spec b Hb) as [Hlb Hub].
  pose proof (Z.log2_nonneg a) as Hla0. pose proof (Z.log2_nonneg b) as Hlb0.
  set (la := Z.log2 a) in *. set (lb := Z.log2 b) in *.
  (* bring everything over the common power 2^(lb + i + j ...) *)
  destruct (a * 2 ^ Z.max 0 (- (la - lb)) <? b * 2 ^ Z.max 0 (la - lb)) eqn:Ht.
  - (* e = la - lb - 1 : b * 2^i * 2^(lb+1) <= ... *)
    assert (b * 2 ^ i < 2 ^ (lb + 1 + i)) as H1.
    { rewrite Z.pow_add_r by lia.
      pose proof (Z.pow_pos_nonneg 2 i ltac:(lia) Hi).
      pose proof (Z.pow_pos_nonneg 2 j ltac:(lia) Hj). nia. }
    assert (2 ^ (la + j) ≤ a * 2 ^ j) as H2.
    { rewrite Z.pow_add_r by lia.
      pose proof (Z.pow_pos_nonneg 2 i ltac:(lia) Hi).
      pose proof (Z.pow_pos_nonneg 2 j ltac:(lia) Hj). nia. }
    replace (lb + 1 + i) with (la + j) in H1 by lia. lia.
  - apply Z.ltb_ge in Ht.
    destruct (Z.le_ge_cases 0 (la - lb)) as [Hpos|Hneg].
    + rewrite (Z.max_r 0 (la - lb)) in Ht by lia.
      rewrite (Z.max_l 0 (- (la - lb))) in Ht by lia.
      rewrite Z.pow_0_r, Z.mul_1_r in Ht.
      replace i with ((la - lb) + j) by lia.
      rewrite Z.pow_add_r by lia.
      pose proof (Z.pow_pos_nonneg 2 j ltac:(lia) Hj).
      rewrite Z.mul_assoc. by apply Z.mul_le_mono_nonneg_r; [lia|].
    + rewrite (Z.max_l 0 (la - lb)) in Ht by lia.
      rewrite (Z.max_r 0 (- (la - lb))) in Ht by lia.
      rewrite Z.pow_0_r, Z.mul_1_r in Ht.
      replace j with (- (la - lb) + i) by lia.
      rewrite Z.pow_add_r by lia.
      pose proof (Z.pow_pos_nonneg 2 i ltac:(lia) Hi).
      rewrite Z.mul_assoc. by apply Z.mul_le_mono_nonneg_r; [lia|].
Qed.

Lemma quotient_exponent_upper a b i j :
  0 < a → 0 < b → 0 ≤ i → 0 ≤ j → i - j = quotient_exponent a b + 1 →
  a * 2 ^ j < b * 2 ^ i.
Proof.
  intros Ha Hb Hi Hj He. unfold quotient_exponent in He.
  destruct (Z.log2_spec a Ha) as [Hla Hua].
  destruct (Z.log2_spec b Hb) as [Hlb Hub].
  pose proof (Z.log2_nonneg a) as Hla0. pose proof (Z.log2_nonneg b) as Hlb0.
  set (la := Z.log2 a) in *. set (lb := Z.log2 b) in *.
  destruct (a * 2 ^ Z.max 0 (- (la - lb)) <? b * 2 ^ Z.max 0 (la - lb)) eqn:Ht.
  - apply Z.ltb_lt in Ht.
    destruct (Z.le_ge_cases 0 (la - lb)) as [Hpos|Hneg].
    + rewrite (Z.max_r 0 (la - lb)) in Ht by lia.
      rewrite (Z.max_l 0 (- (la - lb))) in Ht by lia.
      rewrite Z.pow_0_r, Z.mul_1_r in Ht.
      replace i with ((la - lb) + j) by lia.
      rewrite Z.pow_add_r by lia.
      pose proof (Z.pow_pos_nonneg 2 j ltac:(lia) Hj).
      rewrite Z.mul_assoc. by apply Z.mul_lt_mono_pos_r.
    + rewrite (Z.max_l 0 (la - lb)) in Ht by lia.
      rewrite (Z.max_r 0 (- (la - lb))) in Ht by lia.
      rewrite Z.pow_0_r, Z.mul_1_r in Ht.
      replace j with (- (la - lb) + i) by lia.
      rewrite Z.pow_add_r by lia.
      pose proof (Z.pow_pos_nonneg 2 i ltac:(lia) Hi).
      rewrite Z.mul_assoc. by apply Z.mul_lt_mono_pos_r.
  - assert (a * 2 ^ j < 2 ^ (la + 1 + j)) as H1.
    { rewrite Z.pow_add_r by lia.
      pose proof (Z.pow_pos_nonneg 2 i ltac:(lia) Hi).
      pose proof (Z.pow_pos_nonneg 2 j ltac:(lia) Hj). nia. }
    assert (2 ^ (lb + i) ≤ b * 2 ^ i) as H2.
    { rewrite Z.pow_add_r by lia.
      pose proof (Z.pow_pos_nonneg 2 i ltac:(lia) Hi).
      pose proof (Z.pow_pos_nonneg 2 j ltac:(lia) Hj). nia. }
    replace (la + 1 + j) with (lb + i) in H1 by lia. lia.
Qed.

Lemma quotient_exponent_small a b :
  0 < a → 0 < b → a < 2 ^ 53 * b → quotient_exponent a b ≤ 52.
Proof.
  intros Ha Hb Hsmall.
  destruct (Z.le_gt_cases (quotient_exponent a b) 52) as [|Hbig]; [done|].
  pose proof (quotient_exponent_lower a b (quotient_exponent a b) 0 Ha Hb
                ltac:(lia) ltac:(lia) ltac:(lia)) as Hlow.
  rewrite Z.pow_0_r, Z.mul_1_r in Hlow.
  assert (2 ^ 53 ≤ 2 ^ quotient_exponent a b) by (apply Z.pow_le_mono_r; lia).
  nia.
Qed.

(** Scaled by the weight of the last bit, the quotient stays below
    [2^53]. *)
Lemma quotient_mantissa_small a b k :
  0 < a → 0 < b → 0 ≤ k → k ≤ 52 - quotient_exponent a b →
  a * 2 ^ k < 2 ^ 53 * b.
Proof.
  intros Ha Hb Hk He.
  set (e := quotient_exponent a b) in *.
  set (j := Z.max k (- (e + 1))).
  pose proof (quotient_exponent_upper a b (e + 1 + j) j Ha Hb
                ltac:(lia) ltac:(lia) ltac:(lia)) as Hup.
  assert (2 ^ j = 2 ^ k * 2 ^ (j - k)) as Hj.
  { rewrite <- Z.pow_add_r by lia. f_equal. lia. }
  assert (2 ^ (e + 1 + j) ≤ 2 ^ 53 * 2 ^ (j - k)) as Hi.
  { rewrite <- Z.pow_add_r by lia. apply Z.pow_le_mono_r; lia. }
  pose proof (Z.pow_pos_nonneg 2 (j - k) ltac:(lia) ltac:(lia)) as Ht.
  pose proof (Z.pow_pos_nonneg 2 k ltac:(lia) Hk) as Hpk.
  rewrite Hj in Hup.
  apply (Z.mul_lt_mono_pos_r (2 ^ (j - k))); [done|].
  eapply Z.lt_le_trans; [rewrite <- Z.mul_assoc; exact Hup|].
  rewrite (Z.mul_comm (2 ^ 53) b), <- Z.mul_assoc.
  apply Z.mul_le_mono_nonneg_l; lia.
Qed.

Lemma Qle_inject_l lo v k :
  0 ≤ k → (lo * 2 ^ k ≤ v)%Z →
  Qle (inject_Z lo) (Qred (Qmake v (Z.to_pos (2 ^ k)))).
Proof.
  intros Hk Hv. rewrite Qred_correct. unfold Qle. cbn [Qnum Qden inject_Z].
  rewrite Z2Pos.id by (apply Z.pow_pos_nonneg; lia). lia.
Qed.

Lemma Qle_inject_r hi v k :
  0 ≤ k → (v ≤ hi * 2 ^ k)%Z →
  Qle (Qred (Qmake v (Z.to_pos (2 ^ k)))) (inject_Z hi).
Proof.
  intros Hk Hv. rewrite Qred_correct. unfold Qle. cbn [Qnum Qden inject_Z].
  rewrite Z2Pos.id by (apply Z.pow_pos_nonneg; lia). lia.
Qed.

(** A quotient between two integers of less than 54 bits is not too
    large for a float, and its float lies between them. *)
Lemma true_divide_bounded a b lo hi :
  0 < b → lo * b ≤ a ≤ hi * b → - 2 ^ 53 < lo → hi < 2 ^ 53 →
  ∃ q, true_divide a b = OK (PyFloat q) ∧
       Qle (inject_Z lo) q ∧ Qle q (inject_Z hi).
Proof.
  intros Hb Ha Hlo Hhi. unfold true_divide.
  destruct (a =? 0) eqn:Ha0.
  - apply Z.eqb_eq in Ha0. subst a. exists 0%Q. split; [done|].
    unfold Qle. cbn [Qnum Qden inject_Z]. nia.
  - apply Z.eqb_neq in Ha0.
    assert (0 < Z.abs a) as HA by lia.
    assert (Z.abs a < 2 ^ 53 * b) as Hsmall by nia.
    pose proof (quotient_exponent_small _ _ HA Hb Hsmall) as He.
    set (e := quotient_exponent (Z.abs a) b) in *.
    assert (Z.max 0 (Z.max (e - 52) (-1074)) = 0) as -> by lia.
    set (k := Z.max 0 (- Z.max (e - 52) (-1074))).
    assert (0 ≤ k ∧ k ≤ 52 - e) as [Hk Hke] by lia.
    rewrite Z.pow_0_r, !Z.mul_1_r.
    pose proof (quotient_mantissa_small _ _ k HA Hb Hk Hke) as Hm.
    pose proof (Z.pow_pos_nonneg 2 k ltac:(lia) Hk) as Hpk.
    set (m := round_half_even (Z.abs a * 2 ^ k) b).
    assert (m ≤ 2 ^ 53) as Hm53 by (apply round_half_even_le; lia).
    assert ((2 ^ 1024 <=? m) = false) as ->.
    { apply Z.leb_gt. eapply Z.le_lt_trans; [exact Hm53|].
      apply Z.pow_lt_mono_r; lia. }
    eexists. split; [done|].
    destruct (Z.lt_ge_cases 0 a) as [Hpos|Hneg].
    + rewrite (Z.sgn_pos a Hpos), Z.mul_1_l. rewrite (Z.abs_eq a) in * by lia.
      split.
      * apply Qle_inject_l; [done|]. apply round_half_even_ge; [done|]. nia.
      * apply Qle_inject_r; [done|]. apply round_half_even_le; [done|]. nia.
    + rewrite (Z.sgn_neg a) by lia. rewrite (Z.abs_neq a) in * by lia.
      assert (m ≤ - lo * 2 ^ k) by (apply round_half_even_le; [done|]; nia).
      assert (- hi * 2 ^ k ≤ m) by (apply round_half_even_ge; [done|]; nia).
      split; [apply Qle_inject_l|apply Qle_inject_r]; try done; lia.
Qed.

Lemma true_divide_Err a b e : true_divide a b = Err e → e = OverflowError.
Proof.
  unfold true_divide. destruct (a =? 0); [done|].
  destruct (2 ^ 1024 <=? _); congruence.
Qed.


End Rounding.

(** ** [get_coverage_stats]: when it raises, and what it returns *)

Lemma py_int_Err s e : py_int s = Err e → e = ValueError.
Proof.
  unfold py_int. destruct (int_max_str_digits <? _); [congruence|].
  destruct (digits _ _ _); congruence.
Qed.

Lemma coverage_body_Err depth line e :
  coverage_body depth line = Err e → e = IndexError ∨ e = ValueError.
Proof.
  unfold coverage_body. destruct (re_match coverage_header line); [done|].
  destruct (py_index (split TAB (strip line)) 7) as [f|e7] eqn:H7; simpl.
  - destruct (py_int f) as [d|ei] eqn:Hi; simpl; [done|].
    intros [= <-]. right. by eapply py_int_Err.
  - intros [= <-]. left. by eapply py_index_Err.
Qed.

(** The loop appends to [depth] the depths of the rows, in order. *)
Lemma coverage_loop lines depth depth' :
  for_each coverage_body lines depth = OK depth' →
  ∃ ds, depth' = depth ++ ds ∧
        Forall2 depth_of (data_lines (re_match coverage_header) lines) ds.
Proof.
  revert depth. induction lines as [|line lines IH]; intros depth; cbn [for_each].
  - intros [= <-]. exists []. by rewrite app_nil_r.
  - intros (d1 & Hbody & Hloop)%bind_OK. rewrite data_lines_cons.
    destruct (IH _ Hloop) as (ds & -> & Hds). unfold coverage_body in Hbody.
    destruct (re_match coverage_header line).
    + injection Hbody as <-. eauto.
    + apply bind_OK in Hbody as (f & Hf%py_index_OK & (d & Hd & [= <-])%bind_OK).
      exists (d :: ds). rewrite <- app_assoc. split; [done|].
      constructor; [|done]. by exists f.
Qed.

Lemma for_each_coverage_Err lines depth e :
  for_each coverage_body lines depth = Err e → e = IndexError ∨ e = ValueError.
Proof.
  revert depth. induction lines as [|line lines IH]; intros depth; [done|].
  cbn [for_each]. destruct (coverage_body depth line) as [d|e'] eqn:Hb.
  - rewrite bind_of_OK. apply IH.
  - intros [= <-]. by eapply coverage_body_Err.
Qed.

Lemma coverage_body_header depth line :
  re_match coverage_header line = true → coverage_body depth line = OK depth.
Proof. intros Hh. unfold coverage_body. by rewrite Hh. Qed.

Lemma coverage_body_depth depth line d :
  re_match coverage_header line = false → depth_of line d →
  coverage_body depth line = OK (depth ++ [d]).
Proof.
  intros Hh (f & Hf & Hd). unfold coverage_body. rewrite Hh.
  unfold columns in Hf. unfold py_index. rewrite Hf. simpl. by rewrite Hd.
Qed.

Lemma coverage_loop_succeeds lines depth :
  Forall (λ line, ∃ d, depth_of line d) (data_lines (re_match coverage_header) lines) →
  ∃ depth', for_each coverage_body lines depth = OK depth'.
Proof.
  revert depth. induction lines as [|line lines IH]; intros depth; [eauto|].
  rewrite data_lines_cons. cbn [for_each].
  destruct (re_match coverage_header line) eqn:Hh.
  - intros Hall. rewrite (coverage_body_header depth line Hh), bind_of_OK.
    by apply IH.
  - intros [[d Hd] Hall]%Forall_cons.
    rewrite (coverage_body_depth depth line d Hh Hd), bind_of_OK. by apply IH.
Qed.

Lemma insert_sorted_length x l : length (insert_sorted x l) = S (length l).
Proof.
  induction l as [|y l IH]; [done|]. cbn [insert_sorted].
  destruct (x <=? y)%Z; cbn; [done|by rewrite IH].
Qed.

Lemma sorted_length l : length (sorted l) = length l.
Proof.
  unfold sorted. induction l as [|x l IH]; [done|].
  cbn [foldr]. by rewrite insert_sorted_length, IH.
Qed.

Lemma sum_Z_bounds lo hi l :
  Forall (λ d, lo ≤ d ≤ hi)%Z l →
  (lo * Z.of_nat (length l) ≤ sum_Z l ≤ hi * Z.of_nat (length l))%Z.
Proof.
  induction 1 as [|d l Hd Hl IH]; [cbn; lia|].
  cbn [sum_Z foldr length]. fold (sum_Z l). lia.
Qed.

Lemma insert_sorted_Forall (P : Z → Prop) x l :
  P x → Forall P l → Forall P (insert_sorted x l).
Proof.
  intros Hx. induction 1 as [|y l Hy Hl IH]; cbn [insert_sorted].
  - by repeat constructor.
  - destruct (x <=? y)%Z; repeat constructor; done.
Qed.

Lemma sorted_Forall (P : Z → Prop) l : Forall P l → Forall P (sorted l).
Proof.
  unfold sorted. induction 1 as [|x l Hx Hl IH]; [constructor|].
  cbn [foldr]. by apply insert_sorted_Forall.
Qed.

Lemma nth_Forall (P : Z → Prop) l i :
  Forall P l → i < length l → P (nth i l 0%Z).
Proof.
  intros Hall Hi. rewrite Forall_forall in Hall. apply Hall.
  apply list_elem_of_In, nth_In, Hi.
Qed.





Lemma statistics_mean_Err data e :
  data ≠ [] → statistics_mean data = Err e → e = OverflowError.
Proof.
  intros Hne. unfold statistics_mean. destruct data as [|d data]; [done|].
  destruct (_ =? 0)%Z; [done|]. apply true_divide_Err.
Qed.

Lemma statistics_median_Err data e :
  data ≠ [] → statistics_median data = Err e → e = OverflowError.
Proof.
  intros Hne. unfold statistics_median. rewrite sorted_length.
  destruct data as [|d data]; [done|]. cbn [length Nat.eqb].
  destruct (_ =? 1); [done|]. apply true_divide_Err.
Qed.

Lemma Qle_inject lo hi : (lo ≤ hi)%Z → Qle (inject_Z lo) (inject_Z hi).
Proof. intros H. unfold Qle. cbn [Qnum Qden inject_Z]. lia. Qed.

(** On depths between two integers of less than 54 bits, the mean is
    not too large for a float and lies between them. *)
Lemma statistics_mean_bounded data lo hi :
  data ≠ [] → Forall (λ d, lo ≤ d ≤ hi)%Z data →
  (- 2 ^ 53 < lo)%Z → (hi < 2 ^ 53)%Z →
  ∃ x, statistics_mean data = OK x ∧
       Qle (inject_Z lo) (number_value x) ∧ Qle (number_value x) (inject_Z hi).
Proof.
  intros Hne Hall Hlo Hhi. pose proof (sum_Z_bounds lo hi data Hall) as Hsum.
  unfold statistics_mean. destruct data as [|d0 data0] eqn:E; [done|].
  rewrite <- E in *.
  assert (0 < Z.of_nat (length data))%Z as Hn by (rewrite E; cbn [length]; lia).
  destruct (sum_Z data mod Z.of_nat (length data) =? 0)%Z eqn:Hmod.
  - apply Z.eqb_eq in Hmod. eexists. split; [done|]. cbn [number_value].
    pose proof (Z.div_mod (sum_Z data) (Z.of_nat (length data)) ltac:(lia)).
    split; apply Qle_inject; nia.
  - destruct (true_divide_bounded (sum_Z data) (Z.of_nat (length data)) lo hi)
      as (q & -> & Hq); [lia|lia|done|done|].
    by exists (PyFloat q).
Qed.

Lemma statistics_median_bounded data lo hi :
  data ≠ [] → Forall (λ d, lo ≤ d ≤ hi)%Z data →
  (- 2 ^ 53 < lo)%Z → (hi < 2 ^ 53)%Z →
  ∃ x, statistics_median data = OK x ∧
       Qle (inject_Z lo) (number_value x) ∧ Qle (number_value x) (inject_Z hi).
Proof.
  intros Hne Hall Hlo Hhi. unfold statistics_median. rewrite sorted_length.
  apply (sorted_Forall _ data) in Hall.
  assert (0 < length data) as Hlen by (destruct data; [done|cbn; lia]).
  destruct (length data =? 0) eqn:E0; [apply Nat.eqb_eq in E0; lia|].
  assert (length data / 2 < length data) as Hmid by (apply Nat.div_lt; lia).
  pose proof (nth_Forall _ _ (length data / 2) Hall) as H1.
  rewrite sorted_length in H1. specialize (H1 Hmid). cbn beta in H1.
  destruct (length data `mod` 2 =? 1).
  - eexists. split; [done|]. cbn [number_value]. split; apply Qle_inject; lia.
  - pose proof (nth_Forall _ _ (length data / 2 - 1) Hall) as H2.
    rewrite sorted_length in H2. specialize (H2 ltac:(lia)). cbn beta in H2.
    destruct (true_divide_bounded
                (nth (length data / 2 - 1) (sorted data) 0 +
                 nth (length data / 2) (sorted data) 0)%Z 2 lo hi)
      as (q & -> & Hq); [lia|lia|done|done|].
    by exists (PyFloat q).
Qed.

Lemma get_coverage_stats_Err file e :
  get_coverage_stats file = Err e →
  e = IndexError ∨ e = ValueError ∨ e = StatisticsError ∨ e = OverflowError.
Proof.
  unfold get_coverage_stats.
  destruct (for_each coverage_body (readlines file) []) as [depth|e0] eqn:Hloop.
  - rewrite bind_of_OK. destruct depth as [|d ds]; [intros [= <-]; auto|].
    destruct (statistics_mean (d :: ds)) as [m|e1] eqn:Hmean.
    + rewrite bind_of_OK.
      destruct (statistics_median (d :: ds)) as [md|e2] eqn:Hmed; [done|].
      intros [= <-]. apply statistics_median_Err in Hmed; auto.
    + intros [= <-]. apply statistics_mean_Err in Hmean; auto.
  - intros [= <-]. destruct (for_each_coverage_Err _ _ _ Hloop); auto.
Qed.

(** X14. [get_coverage_stats] raises [StatisticsError] exactly when the
    table has no data row; the other exceptions it raises are
    [IndexError], [ValueError] and, when the mean or the median is too
    large for a float, [OverflowError]. *)
Theorem statistics_error_iff_no_rows (file : string) :
  (get_coverage_stats file = Err StatisticsError ↔ coverage_rows file = []) ∧
  (∀ e, get_coverage_stats file = Err e →
        e = IndexError ∨ e = ValueError ∨ e = StatisticsError ∨ e = OverflowError).
Proof.
  split; [|apply get_coverage_stats_Err].
  unfold get_coverage_stats, coverage_rows, rows_except.
  destruct (for_each coverage_body (readlines file) []) as [depth|e0] eqn:Hloop.
  - rewrite bind_of_OK. apply coverage_loop in Hloop as (ds & -> & Hds).
    rewrite app_nil_l. destruct ds as [|d ds].
    + apply Forall2_nil_inv_r in Hds. by rewrite Hds.
    + split.
      * destruct (statistics_mean (d :: ds)) as [m|e1] eqn:Hmean.
        -- rewrite bind_of_OK.
           destruct (statistics_median (d :: ds)) as [md|e2] eqn:Hmed; [done|].
           intros [= ->]. by apply statistics_median_Err in Hmed.
        -- intros [= ->]. by apply statistics_mean_Err in Hmean.
      * intros Hnil. rewrite Hnil in Hds. by apply Forall2_nil_inv_l in Hds.
  - pose proof (for_each_coverage_Err _ _ _ Hloop) as He. split.
    + intros [= ->]. by destruct He.
    + intros Hnil.
      rewrite (for_each_headers_only (re_match coverage_header) coverage_body)
        in Hloop; [done| |exact Hnil].
      intros st l Hh. unfold coverage_body. by rewrite Hh.
Qed.



Lemma coverage_depths_bounded file ds lo hi :
  Forall2 depth_of (coverage_rows file) ds →
  (∀ line d, line ∈ coverage_rows file → depth_of line d → (lo ≤ d ≤ hi)%Z) →
  Forall (λ d, lo ≤ d ≤ hi)%Z ds.
Proof.
  intros Hds Hbounds. apply Forall_forall. intros d Hd.
  apply list_elem_of_lookup in Hd as [i Hi].
  destruct (Forall2_lookup_r _ _ _ _ _ Hds Hi) as (line & Hline & Hdepth).
  eapply Hbounds; [|exact Hdepth]. by eapply list_elem_of_lookup_2.
Qed.

(** X16. When every depth lies between two integers [lo] and [hi] of
    less than 54 bits ([-2^53 < lo] and [hi < 2^53]), the mean and the
    median that [get_coverage_stats] returns lie between [lo] and [hi]
    too. *)
Theorem coverage_stats_bounded (file : string) (s : coverage_stats) (lo hi : Z) :
  get_coverage_stats file = OK s →
  (∀ line d, line ∈ coverage_rows file → depth_of line d → (lo ≤ d ≤ hi)%Z) →
  (- 2 ^ 53 < lo)%Z → (hi < 2 ^ 53)%Z →
  Qle (inject_Z lo) (number_value (mean s)) ∧
  Qle (number_value (mean s)) (inject_Z hi) ∧
  Qle (inject_Z lo) (number_value (median s)) ∧
  Qle (number_value (median s)) (inject_Z hi).
Proof.
  unfold get_coverage_stats.
  intros (depth & Hloop & (m & Hmean & (md & Hmed & [= <-])%bind_OK)%bind_OK)%bind_OK
    Hbounds Hlo Hhi.
  apply coverage_loop in Hloop as (ds & -> & Hds). rewrite app_nil_l in *.
  pose proof (coverage_depths_bounded file ds lo hi Hds Hbounds) as Hall.
  assert (ds ≠ []) as Hne by (by destruct ds).
  destruct (statistics_mean_bounded ds lo hi Hne Hall Hlo Hhi) as (x & Hx & Hx1 & Hx2).
  destruct (statistics_median_bounded ds lo hi Hne Hall Hlo Hhi) as (y & Hy & Hy1 & Hy2).
  rewrite Hx in Hmean. rewrite Hy in Hmed.
  injection Hmean as <-. injection Hmed as <-. done.
Qed.

Lemma coverage_two_rows_depths line d :
  line ∈ coverage_rows coverage_two_rows → depth_of line d → (10 ≤ d ≤ 14)%Z.
Proof.
  intros Hin (field & Hfield & Hint). vm_compute in Hin.
  apply elem_of_cons in Hin as [->|Hin];
    [|apply elem_of_cons in Hin as [->|Hin]; [|by apply elem_of_nil in Hin]];
    vm_compute in Hfield; injection Hfield as <-;
    vm_compute in Hint; injection Hint as <-; lia.
Defined.

Lemma coverage_stats_bounded_witness :
  Qle (inject_Z 10) (inject_Z 12) ∧ Qle (inject_Z 12) (inject_Z 14) ∧
  Qle (inject_Z 10) (Qmake 12 1) ∧ Qle (Qmake 12 1) (inject_Z 14).
Proof.
  apply (coverage_stats_bounded coverage_two_rows
           (CoverageStats (PyInt 12) (PyFloat (Qmake 12 1))) 10 14).
  - vm_compute; reflexivity.
  - apply coverage_two_rows_depths.
  - vm_compute; reflexivity.
  - vm_compute; reflexivity.
Defined.

(** X23. On a table whose depths all have less than 54 bits
    ([-2^53 < d < 2^53]), [get_coverage_stats] returns exactly when the
    table has a data row and every data row, once stripped, holds in
    column 7 a text that [int] accepts. *)
Theorem get_coverage_stats_returns_iff (file : string) :
  (∀ line d, line ∈ coverage_rows file → depth_of line d →
             (- 2 ^ 53 < d < 2 ^ 53)%Z) →
  (∃ s, get_coverage_stats file = OK s) ↔
  coverage_rows file ≠ [] ∧
  Forall (λ line, ∃ d, depth_of line d) (coverage_rows file).
Proof.
  intros Hbounds. unfold get_coverage_stats. split.
  - intros (s & (depth & Hloop & Hrest)%bind_OK).
    apply coverage_loop in Hloop as (ds & -> & Hds).
    rewrite app_nil_l in Hrest.
    fold (rows_except (re_match coverage_header) file) in Hds.
    fold (coverage_rows file) in Hds.
    destruct ds as [|d ds]; [done|]. split.
    + intros Hnil. rewrite Hnil in Hds. by apply Forall2_nil_inv_l in Hds.
    + eapply Forall2_Forall_l; [exact Hds|].
      apply Forall_forall. intros x _ line Hline. by exists x.
  - intros [Hne Hall].
    destruct (coverage_loop_succeeds (readlines file) [] Hall) as [depth Hloop].
    rewrite Hloop, bind_of_OK.
    apply coverage_loop in Hloop as (ds & -> & Hds). rewrite app_nil_l.
    fold (rows_except (re_match coverage_header) file) in Hds.
    fold (coverage_rows file) in Hds.
    assert (ds ≠ []) as Hds0.
    { intros ->. by apply Forall2_nil_inv_r in Hds. }
    assert (Forall (λ d, - (2 ^ 53 - 1) ≤ d ≤ 2 ^ 53 - 1)%Z ds) as Hin.
    { apply (coverage_depths_bounded file); [done|].
      intros line d Hl Hd. specialize (Hbounds line d Hl Hd). lia. }
    destruct (statistics_mean_bounded ds _ _ Hds0 Hin) as (x & -> & _); [lia..|].
    destruct (statistics_median_bounded ds _ _ Hds0 Hin) as (y & -> & _); [lia..|].
    rewrite !bind_of_OK. eauto.
Qed.

Lemma get_coverage_stats_returns_iff_witness :
  (∃ s, get_coverage_stats coverage_two_rows = OK s) ↔
  coverage_rows coverage_two_rows ≠ [] ∧
  Forall (λ line, ∃ d, depth_of line d) (coverage_rows coverage_two_rows).
Proof.
  apply (get_coverage_stats_returns_iff coverage_two_rows).
  intros line d Hin Hd.
  pose proof (coverage_two_rows_depths line d Hin Hd) as H.
  split.
  - eapply Z.lt_le_trans; [|exact (proj1 H)]. vm_compute; reflexivity.
  - eapply Z.le_lt_trans; [exact (proj2 H)|]. vm_compute; reflexivity.
Defined.
(** ** [create_qc_summary_line]: the join on the sample name *)

Lemma get_total_variants_Err file indel e :
  get_total_variants file indel = Err e → e = IndexError.
Proof. rewrite get_total_variants_outcome. case_decide; congruence. Qed.

Lemma qc_project_Err data e : qc_project data = Err e → e = IndexError.
Proof.
  unfold qc_project.
  destruct (py_index data 0) as [d0|e0] eqn:H0; simpl;
    [|intros [= <-]; by eapply py_index_Err].
  destruct (py_index data 1) as [d1|e1] eqn:H1; simpl;
    [|intros [= <-]; by eapply py_index_Err].
  destruct (py_index data 2) as [d2|e2] eqn:H2; simpl;
    [|intros [= <-]; by eapply py_index_Err].
  destruct (py_index data 6) as [d6|e6] eqn:H6; simpl;
    [done|intros [= <-]; by eapply py_index_Err].
Qed.

Lemma get_qc_data_Err file e :
  get_qc_data file = Err e → e = UnboundLocalError ∨ e = IndexError.
Proof.
  rewrite get_qc_data_last. destruct (last (qc_rows file)).
  - intros ->%qc_project_Err. by right.
  - intros [= <-]. by left.
Qed.

(** X17. [create_qc_summary_line] raises [KeyError] exactly when the
    four files are read without an error and the sample name of the QC
    file is not bound in the metadata: none of the four readers raises
    [KeyError] itself. *)
Theorem key_error_iff_absent
    (var_file qc_file cov_file meta_file : string) (indel : bool) :
  create_qc_summary_line var_file qc_file cov_file meta_file indel = Err KeyError ↔
  ∃ variants qc coverage (meta_data : gmap string string),
    get_total_variants var_file indel = OK variants ∧
    get_qc_data qc_file = OK qc ∧
    get_coverage_stats cov_file = OK coverage ∧
    import_ct_data meta_file = OK meta_data ∧
    meta_data !! sample_name qc = None.
Proof.
  unfold create_qc_summary_line. split.
  - destruct (get_total_variants var_file indel) as [v|e] eqn:Hv;
      [rewrite bind_of_OK|intros [= ->]; by apply get_total_variants_Err in Hv].
    destruct (get_qc_data qc_file) as [q|e] eqn:Hq;
      [rewrite bind_of_OK|intros [= ->]; by destruct (get_qc_data_Err _ _ Hq)].
    destruct (get_coverage_stats cov_file) as [c|e] eqn:Hc;
      [rewrite bind_of_OK|
       intros [= ->]; by destruct (get_coverage_stats_Err _ _ Hc) as [|[|[|]]]].
    destruct (import_ct_data meta_file) as [m|e] eqn:Hm;
      [rewrite bind_of_OK|intros [= ->]; by apply import_ct_data_Err in Hm].
    unfold py_getitem. destruct (m !! sample_name q) eqn:Hlook; [done|].
    intros _. by exists v, q, c, m.
  - intros (v & q & c & m & -> & -> & -> & -> & Habsent).
    rewrite !bind_of_OK. unfold py_getitem. by rewrite Habsent.
Qed.

(** X18. A summary that [create_qc_summary_line] returns holds the
    results of the three readers on their files, and its [ct] is
    column 1 of the last row of the metadata table whose column 0 is
    the sample name read from the QC file. *)
Theorem summary_joins_on_sample_name
    (var_file qc_file cov_file meta_file : string) (indel : bool) (s : summary) :
  create_qc_summary_line var_file qc_file cov_file meta_file indel = OK s →
  get_total_variants var_file indel = OK (summary_variants s) ∧
  get_qc_data qc_file = OK (summary_qc s) ∧
  get_coverage_stats cov_file = OK (summary_coverage s) ∧
  ∃ line, last (rows_of (sample_name (summary_qc s)) (ct_rows meta_file)) = Some line ∧
          columns line !! 1 = Some (ct s).
Proof.
  unfold create_qc_summary_line.
  intros (v & Hv & (q & Hq & (c & Hc & (m & Hm & (t & Ht & [= <-])%bind_OK)
    %bind_OK)%bind_OK)%bind_OK)%bind_OK.
  cbn [summary_variants summary_qc summary_coverage ct].
  repeat split; try done.
  unfold py_getitem in Ht. destruct (m !! sample_name q) as [t'|] eqn:Hlook; [|done].
  injection Ht as ->.
  assert (Forall (λ line, 2 ≤ length (columns line)) (ct_rows meta_file)) as Hall.
  { destruct (decide (Forall (λ line, 2 ≤ length (columns line)) (ct_rows meta_file)))
      as [|Hnot]; [done|].
    apply not_Forall_Exists in Hnot; [|apply _].
    apply Exists_exists in Hnot as (line & Hin & Hshort). simpl in Hshort.
    rewrite (import_ct_data_short_row meta_file line Hin) in Hm; [done|lia]. }
  destruct (ct_loop (sample_name q) (readlines meta_file) ∅ Hall) as (m' & Hm' & Hl).
  unfold import_ct_data in Hm. rewrite Hm in Hm'. injection Hm' as <-.
  fold (rows_except (λ line, re_match metadata_header (lower line)) meta_file) in Hl.
  fold (ct_rows meta_file) in Hl. rewrite Hlook in Hl.
  destruct (last (rows_of (sample_name q) (ct_rows meta_file))) as [line|].
  - by exists line.
  - by rewrite lookup_empty in Hl.
Qed.

Lemma summary_joins_on_sample_name_witness :
  get_total_variants variants_example true = OK (VariantCounts 4 1 1 3 1) ∧
  get_qc_data qc_one_line = OK (QcFields "s1" "0.50" "99.50" "TRUE") ∧
  get_coverage_stats coverage_two_rows = OK (CoverageStats (PyInt 12) (PyFloat (Qmake 12 1))) ∧
  ∃ line, last (rows_of "s1" (ct_rows metadata_duplicates)) = Some line ∧
          columns line !! 1 = Some "24.1".
Proof.
  apply (summary_joins_on_sample_name variants_example qc_one_line coverage_two_rows
           metadata_duplicates true
           (Summary (VariantCounts 4 1 1 3 1) (QcFields "s1" "0.50" "99.50" "TRUE")
                    (CoverageStats (PyInt 12) (PyFloat (Qmake 12 1))) "24.1")).
  vm_compute; reflexivity.
Defined.

(** ** [collect_qc_summary_data]: the lines it returns *)

(** X19. [collect_qc_summary_data] returns, file after file, the lines
    of each file that do not start with the header, stripped on the
    right; collecting from a list of files followed by another gives
    the lines of the first list followed by those of the second. *)
Theorem collect_file_after_file (files1 files2 : list string) :
  collect_qc_summary_data files1 =
    concat (map (λ file, map rstrip (summary_rows file)) files1) ∧
  collect_qc_summary_data (files1 ++ files2) =
    collect_qc_summary_data files1 ++ collect_qc_summary_data files2.
Proof.
  unfold collect_qc_summary_data. rewrite !collect_files, !app_nil_l.
  split; [done|]. by rewrite map_app, concat_app.
Qed.

Lemma rstrip_rstrip s : rstrip (rstrip s) = rstrip s.
Proof.
  induction s as [|c s IH]; [done|]. cbn [rstrip].
  destruct (rstrip s) as [|c' r] eqn:Hr.
  - destruct (isspace c) eqn:Hc; [done|]. cbn. by rewrite Hc.
  - cbn [rstrip]. cbn [rstrip] in IH. by rewrite IH.
Qed.

(** X20. No line that [collect_qc_summary_data] returns starts with
    the header of the summary files, and none ends with a blank:
    stripping it again changes nothing. *)
Theorem collected_lines_clean (files : list string) (line : string) :
  line ∈ collect_qc_summary_data files →
  re_match summary_header line = false ∧ rstrip line = line.
Proof.
  unfold collect_qc_summary_data. rewrite collect_files, app_nil_l.
  intros (rows & Hrows & Hline)%list_elem_of_In%in_concat.
  apply in_map_iff in Hrows as (file & <- & _).
  apply in_map_iff in Hline as (raw & <- & [_ Hraw]%list_elem_of_In%data_lines_elem).
  split; [|apply rstrip_rstrip].
  destruct (re_match summary_header (rstrip raw)) eqn:E; [|done].
  apply re_match_rstrip in E. congruence.
Qed.

Lemma collected_lines_clean_witness :
  re_match summary_header (rstrip (summary_line "s3")) = false ∧
  rstrip (rstrip (summary_line "s3")) = rstrip (summary_line "s3").
Proof.
  apply (collected_lines_clean [summary_file_1; summary_file_2]).
  vm_compute. do 2 constructor. constructor.
Defined.

(** ** [write_qc_summary]: the line and its way back *)

Example write_qc_summary_s1 :
  write_qc_summary str_whole summary_s1 EmptyString =
  row TAB ["s1"; "0.50"; "99.50"; "4"; "3"; "1"; "1"; "1"; "12"; "12.0"; "24.1"; "TRUE"].
Proof. vm_compute; reflexivity. Qed.

Lemma append_empty s : s +:+ EmptyString = s.
Proof.
  induction s as [|c s IH]; [done|].
  change (String c s +:+ EmptyString) with (String c (s +:+ EmptyString)).
  by rewrite IH.
Qed.

Lemma split_app_field sep f rest g gs :
  count_char sep f = 0 → split sep rest = g :: gs →
  split sep (f +:+ rest) = (f +:+ g) :: gs.
Proof.
  intros Hf Hrest. induction f as [|c f IH]; [done|].
  change (String c f +:+ rest) with (String c (f +:+ rest)).
  cbn [count_char] in Hf. cbn [split].
  destruct (Ascii.eqb c sep); [done|]. by rewrite IH.
Qed.

(** Joining fields that hold no separator and splitting the line gives
    the fields back. *)
Lemma split_join sep fields :
  fields ≠ [] → Forall (λ f, count_char sep f = 0) fields →
  split sep (join sep fields) = fields.
Proof.
  intros Hne Hall. induction Hall as [|f fields Hf Hall IH]; [done|].
  destruct fields as [|g fields].
  - cbn [join]. rewrite <- (append_empty f) at 1.
    rewrite (split_app_field sep f EmptyString EmptyString []); [|done..].
    by rewrite append_empty.
  - change (join sep (f :: g :: fields))
      with (f +:+ String sep (join sep (g :: fields))).
    rewrite (split_app_field sep f _ EmptyString (g :: fields)); [|done|].
    + by rewrite append_empty.
    + cbn [split]. rewrite Ascii.eqb_refl. by rewrite IH.
Qed.

Lemma string_of_uint_no_tab d :
  count_char TAB (DecimalString.NilEmpty.string_of_uint d) = 0.
Proof. induction d; cbn; auto. Qed.

Lemma str_nat_no_tab n : count_char TAB (str_nat n) = 0.
Proof. apply string_of_uint_no_tab. Qed.

(** X21. The line [write_qc_summary] prints has twelve tab-delimited
    columns, which are its twelve values in order, whenever none of the
    texts it joins (the sample name, the two percentages, the ct, the
    QC flag and the two printed statistics) holds a tab. *)
Theorem written_line_has_twelve_columns
    (str_number : number → string) (s : summary) (stdout : string) :
  count_char TAB (sample_name (summary_qc s)) = 0 →
  count_char TAB (pct_n_bases (summary_qc s)) = 0 →
  count_char TAB (pct_covered_bases (summary_qc s)) = 0 →
  count_char TAB (qc_pass (summary_qc s)) = 0 →
  count_char TAB (ct s) = 0 →
  count_char TAB (str_number (mean (summary_coverage s))) = 0 →
  count_char TAB (str_number (median (summary_coverage s))) = 0 →
  ∃ line,
    write_qc_summary str_number s stdout = stdout +:+ line +:+ String LF EmptyString ∧
    split TAB line = summary_columns str_number s ∧
    length (split TAB line) = 12.
Proof.
  intros Hname Hn Hcov Hpass Hct Hmean Hmedian.
  exists (join TAB (summary_columns str_number s)). split; [done|].
  assert (split TAB (join TAB (summary_columns str_number s))
          = summary_columns str_number s) as Hsplit.
  { apply split_join; [done|]. unfold summary_columns.
    repeat (constructor; [first [assumption | apply str_nat_no_tab]|]).
    constructor. }
  by rewrite Hsplit.
Qed.

Lemma written_line_has_twelve_columns_witness :
  ∃ line,
    write_qc_summary str_whole summary_s1 EmptyString =
      EmptyString +:+ line +:+ String LF EmptyString ∧
    split TAB line = summary_columns str_whole summary_s1 ∧
    length (split TAB line) = 12.
Proof.
  apply (written_line_has_twelve_columns str_whole summary_s1 EmptyString);
    vm_compute; reflexivity.
Defined.

Lemma readlines_line line :
  count_char LF line = 0 →
  readlines (line +:+ String LF EmptyString) = [line +:+ String LF EmptyString].
Proof.
  induction line as [|c line IH]; [done|]. cbn [count_char]. intros Hc.
  change (String c line +:+ String LF EmptyString)
    with (String c (line +:+ String LF EmptyString)).
  cbn [readlines]. destruct (Ascii.eqb c LF); [done|]. by rewrite IH.
Qed.

Lemma complete_line line : complete (line +:+ String LF EmptyString) = true.
Proof.
  induction line as [|c line IH]; [done|].
  change (String c line +:+ String LF EmptyString)
    with (String c (line +:+ String LF EmptyString)).
  destruct line as [|c' line']; [done|]. exact IH.
Qed.

(** A literal that holds no [c] and starts a line followed by [c]
    starts the line. *)
Lemma re_match_app_char lit c s :
  count_char c lit = 0 → re_match lit (s +:+ String c EmptyString) = true →
  re_match lit s = true.
Proof.
  revert s. induction lit as [|a lit IH]; intros s; [done|].
  cbn [count_char]. intros Hc. destruct s as [|b s].
  - change (EmptyString +:+ String c EmptyString) with (String c EmptyString).
    cbn [re_match]. destruct (Ascii.eqb a c); [lia|]. by rewrite andb_false_l.
  - change (String b s +:+ String c EmptyString)
      with (String b (s +:+ String c EmptyString)).
    cbn [re_match]. intros [-> Hm]%andb_true_iff. apply IH; [|done].
    destruct (Ascii.eqb a c); [done|lia].
Qed.

(** What [collect_qc_summary_data] reads in the summary file of a
    sample. *)
Lemma summary_file_rows str_number s :
  reads_back (join TAB (summary_columns str_number s)) →
  map rstrip (summary_rows (summary_file str_number s))
  = [join TAB (summary_columns str_number s)].
Proof.
  intros (Hlf & Hstrip & Hhead).
  set (line := join TAB (summary_columns str_number s)) in *.
  assert (summary_file str_number s =
          (join TAB default_header +:+ String LF EmptyString) +:+
          (line +:+ String LF EmptyString)) as -> by done.
  unfold summary_rows. rewrite rows_except_app by apply complete_line.
  assert (rows_except (re_match summary_header)
            (join TAB default_header +:+ String LF EmptyString) = []) as ->
    by (vm_compute; reflexivity).
  rewrite app_nil_l. unfold rows_except. rewrite (readlines_line line Hlf).
  rewrite data_lines_cons.
  destruct (re_match summary_header (line +:+ String LF EmptyString)) eqn:E.
  - apply re_match_app_char in E; [congruence|vm_compute; reflexivity].
  - cbn [data_lines filter map]. unfold data_lines. rewrite filter_nil. cbn [map].
    by rewrite rstrip_app_blank, Hstrip.
Qed.

(** X22. What is written is read back: when each sample has its
    summary file, made of the default header printed by
    [write_qc_summary_header] and of the line printed by
    [write_qc_summary], [collect_qc_summary_data] returns the lines
    that were printed, one for each sample and in the order of the
    files, provided each line holds no newline, does not end with a
    blank and does not start with the header. *)
Theorem summary_files_read_back (str_number : number → string) (samples : list summary) :
  Forall (λ s, reads_back (join TAB (summary_columns str_number s))) samples →
  collect_qc_summary_data (map (summary_file str_number) samples)
  = map (λ s, join TAB (summary_columns str_number s)) samples.
Proof.
  intros Hall. unfold collect_qc_summary_data. rewrite collect_files, app_nil_l.
  induction Hall as [|s samples Hs Hall IH]; [done|].
  cbn [map concat]. by rewrite (summary_file_rows str_number s Hs), IH.
Qed.

Lemma summary_files_read_back_witness :
  collect_qc_summary_data (map (summary_file str_whole) [summary_s1; summary_s1])
  = map (λ s, join TAB (summary_columns str_whole s)) [summary_s1; summary_s1].
Proof.
  apply (summary_files_read_back str_whole [summary_s1; summary_s1]).
  repeat constructor; vm_compute; reflexivity.
Defined.

